(** * TradingMonitorIBKR: the monitoring engine of [main.py] and
      [portfolio_monitor.py], embedded as Rocq functions.

    Globals of the Python modules are threaded explicitly; calls to the
    notification transports, the logger, the spreadsheet client and the
    broker's scheduler are recorded as a list of effects in program order. *)

From Stdlib Require Import ZArith QArith Qcanon Lia.
From stdpp Require Import base decidable option list numbers strings gmap.

Local Open Scope Z_scope.
#[local] Set Warnings "-clear-no-such-hyp".

(** ** Python floats *)

(** A Python [float] as the code uses it: not-a-number, the two infinities,
    or a finite value (every finite double is a rational).  The integers the
    code mixes in ([0], [-1]) compare like the equal floats. *)
Module PyFloat.

Inductive pyfloat : Type :=
| NaN
| NegInf
| Fin (q : Qc)
| PosInf.

Definition ofZ (z : Z) : pyfloat := Fin (Qc_of_Z z).

(** [math.isnan] *)
Definition isnan (x : pyfloat) : bool :=
  match x with NaN => true | _ => false end.

(** [x > c], [x <= c], [x == c], [x != c] against a finite constant;
    every ordered comparison with NaN is [False], [!=] is [True]. *)
Definition gtb (x : pyfloat) (c : Qc) : bool :=
  match x with
  | NaN | NegInf => false
  | Fin q => bool_decide (c < q)%Qc
  | PosInf => true
  end.

Definition leb (x : pyfloat) (c : Qc) : bool :=
  match x with
  | NaN | PosInf => false
  | Fin q => bool_decide (q ≤ c)%Qc
  | NegInf => true
  end.

Definition eqb (x : pyfloat) (c : Qc) : bool :=
  match x with
  | Fin q => bool_decide (q = c)
  | _ => false
  end.

Definition neb (x : pyfloat) (c : Qc) : bool := negb (eqb x c).

(** [0 if math.isnan(x) else x] *)
Definition nan_to_zero (x : pyfloat) : pyfloat :=
  if isnan x then ofZ 0 else x.

End PyFloat.
Export PyFloat.

(** ** Insertion-ordered dictionaries *)

(** A Python [dict] whose iteration order the code relies on: an association
    list in insertion order.  Assigning to a present key replaces the value in
    place, assigning to an absent key appends. *)
Module PyDict.

Definition t (V : Type) : Type := list (string * V).

Fixpoint get {V} (k : string) (d : t V) : option V :=
  match d with
  | [] => None
  | (k', v) :: d' => if decide (k = k') then Some v else get k d'
  end.

Definition mem {V} (k : string) (d : t V) : bool :=
  match get k d with Some _ => true | None => false end.

Fixpoint set {V} (k : string) (v : V) (d : t V) : t V :=
  match d with
  | [] => [(k, v)]
  | (k', v') :: d' =>
      if decide (k = k') then (k, v) :: d' else (k', v') :: set k v d'
  end.

Definition keys {V} (d : t V) : list string := d.*1.
Definition values {V} (d : t V) : list V := d.*2.
Definition items {V} (d : t V) : list (string * V) := d.

End PyDict.

(** ** Effects *)

(** A fill as [buildTradeMessage] reads it. *)
Record Execution := {
  side : string;
  shares : pyfloat;
  price : pyfloat
}.

(** The interpolated fields of the f-strings the program sends or logs;
    rendering them to text is Python's formatting. *)
Inductive Text : Type :=
| Lit (s : string)
| ShortableMsg (shortableShares : pyfloat) (symbol : string)
| TradeMsg (e : Execution) (localSymbol : string) (commission : pyfloat)
| OldEventNotice (minutes : Z)
| UnexpectedError (e : string)
| CallBackRunning (hour minute : Z)
| CallBackOk (now : Z).

(** One cell of the table handed to the spreadsheet. *)
Inductive TimeStr : Type :=
| TimeEmpty
| TimeNA
| Strftime (timestamp : Z).

Inductive Cell : Type :=
| CStr (s : string)
| CNum (x : pyfloat)
| CTime (t : TimeStr).

Inductive Effect : Type :=
| Telegram (msg : Text)
| Email (recipients : list string) (subject : string) (msg : Text)
| LogInfo (msg : Text)
| LogError (msg : Text)
| Print (msg : Text)
| WriteDataToSheet (sheet_name : string) (data : list (list Cell))
    (start_column : string) (start_row : Z)
| Schedule (time : Z) (manualTickers : list string).

(** ** The broker library's objects, as far as the code reads them *)

Module Ib.

Record Contract := {
  symbol : string;
  localSymbol : string
}.

Record Ticker := {
  contract : option Contract;
  shortableShares : pyfloat
}.

Record CommissionReport := { commission : pyfloat }.

(** [time] is the fill's UTC timestamp, in microseconds. *)
Record Fill := {
  execution : Execution;
  commissionReport : CommissionReport;
  time : Z
}.

Record Trade := {
  trade_contract : Contract;
  fills : list Fill
}.

End Ib.
Import Ib (Ticker, contract, shortableShares).

(** ** [main.py]: shortable-share notifications *)

(** The two module globals [shortableSharesDict] and [nanCounterDict]. *)
Record Hyst := {
  shortableSharesDict : gmap string pyfloat;
  nanCounterDict : gmap string Z
}.

Inductive Exn : Type :=
| KeyError (key : string)
| IndexError
| AttributeError (attr : string)
| ValueError
| OverflowError.

Definition exn_text (e : Exn) : Text :=
  match e with
  | KeyError k => UnexpectedError k
  | IndexError => UnexpectedError "list index out of range"
  | AttributeError a => UnexpectedError a
  | ValueError => UnexpectedError "cannot convert float NaN to integer"
  | OverflowError => UnexpectedError "cannot convert float infinity to integer"
  end.

(** What one pass through the body of the [for] loop leaves behind. *)
Inductive Outcome (S : Type) : Type :=
| Returned (st : S) (effs : list Effect)
| Raised (e : Exn) (st : S) (effs : list Effect).
Arguments Returned {S} st effs.
Arguments Raised {S} e st effs.

Definition SENTINEL : Qc := Qc_of_Z 2147483000.
Definition zeroQ : Qc := Qc_of_Z 0.

(** [0 if shortableShares > 2_147_483_000 else shortableShares] *)
Definition normalize (s : pyfloat) : pyfloat :=
  if gtb s SENTINEL then ofZ 0 else s.

Definition set_counter (symbol : string) (c : Z) (st : Hyst) : Hyst :=
  {| shortableSharesDict := shortableSharesDict st;
     nanCounterDict := <[symbol := c]> (nanCounterDict st) |}.

Definition set_shares (symbol : string) (s : pyfloat) (st : Hyst) : Hyst :=
  {| shortableSharesDict := <[symbol := s]> (shortableSharesDict st);
     nanCounterDict := nanCounterDict st |}.

(** The condition of the notifying [if]: its first disjunct is the
    depletion, its second the emergence. *)
Definition depleted (prev s : pyfloat) : bool := neb prev zeroQ && eqb s zeroQ.
Definition emerged (prev s : pyfloat) : bool := leb prev zeroQ && gtb s zeroQ.

(** The body of the loop of [notifyShortableShares] for one ticker. *)
Definition notifyTicker (ticker : Ticker) (st : Hyst) : Outcome Hyst :=
  match contract ticker with
  | None => Returned st []
  | Some c =>
      let symbol := Ib.symbol c in
      let s := shortableShares ticker in
      let '(st1, s1) :=
        if isnan s
        then (set_counter symbol (default 0 (nanCounterDict st !! symbol) + 1) st, s)
        else (st, normalize s) in
      match nanCounterDict st1 !! symbol with
      | None => Raised (KeyError symbol) st1 []
      | Some n =>
          let '(st2, s2) :=
            if 10 <? n then (set_counter symbol 0 st1, ofZ 0) else (st1, s1) in
          let prev := default (ofZ 0) (shortableSharesDict st2 !! symbol) in
          let effs :=
            if depleted prev s2 || emerged prev s2
            then [Telegram (ShortableMsg s2 symbol); LogInfo (ShortableMsg s2 symbol)]
            else [] in
          let st3 := if negb (isnan s2) then set_shares symbol s2 st2 else st2 in
          Returned st3 effs
      end
  end.

(** The loop: tickers in iteration order; an exception leaves the loop and
    the tickers after it are not visited. *)
Fixpoint notifyLoop (tickers : list Ticker) (st : Hyst) : Outcome Hyst :=
  match tickers with
  | [] => Returned st []
  | ticker :: rest =>
      match notifyTicker ticker st with
      | Returned st' effs =>
          match notifyLoop rest st' with
          | Returned st'' effs' => Returned st'' (effs ++ effs')
          | Raised e st'' effs' => Raised e st'' (effs ++ effs')
          end
      | Raised e st' effs => Raised e st' effs
      end
  end.

(** [notifyShortableShares]: the loop under [try], the generic handler
    prints the exception and the function returns. *)
Definition notifyShortableShares (tickerSet : list Ticker) (st : Hyst)
  : Hyst * list Effect :=
  match notifyLoop tickerSet st with
  | Returned st' effs => (st', effs)
  | Raised e st' effs => (st', effs ++ [Print (exn_text e)])
  end.

(** ** [main.py]: relaying fills *)

Inductive Result (A : Type) : Type :=
| Ok (a : A)
| Err (e : Exn).
Arguments Ok {A} a.
Arguments Err {A} e.

(** [int(x)] of a float: NaN and the infinities raise, a finite value is
    cut towards zero. *)
Definition py_int (x : pyfloat) : Result Z :=
  match x with
  | NaN => Err ValueError
  | NegInf | PosInf => Err OverflowError
  | Fin q => Ok (Z.quot (Qnum q) (Z.pos (Qden q)))
  end.

(** [trade.fills[-1].execution] raises on a trade without fills, and
    [int(execution.shares)] in the f-string raises on shares that are not a
    finite number; only then is there a message. *)
Definition buildTradeMessage (trade : Ib.Trade) (commission : pyfloat)
  : Result Text :=
  match last (Ib.fills trade) with
  | None => Err IndexError
  | Some f =>
      match py_int (shares (Ib.execution f)) with
      | Err e => Err e
      | Ok _ =>
          Ok (TradeMsg (Ib.execution f) (Ib.localSymbol (Ib.trade_contract trade))
                commission)
      end
  end.

Definition onExecDetails (trade : Ib.Trade) (fill : Ib.Fill)
  : Result (list Effect) :=
  match buildTradeMessage trade (Ib.commission (Ib.commissionReport fill)) with
  | Err e => Err e
  | Ok msg => Ok [Telegram msg; LogInfo msg]
  end.

Definition timeTresholdMinutes : Z := 2.

(** A [timedelta] of whole minutes, in microseconds. *)
Definition minutes_us (m : Z) : Z := m * 60 * 1000000.
Definition seconds_us (s : Z) : Z := s * 1000000.

Definition RECIPIENTS : list string :=
  ["m.garcia@newfrontier.es"; "mpolavieja@gmail.com"]%string.
Definition SUBJECT : string := "Ejecución New Frontier".

(** [now] is the reading of [datetime.now(timezone.utc)], in microseconds. *)
Definition onCommission (now : Z) (trade : Ib.Trade) (fill : Ib.Fill)
    (report : Ib.CommissionReport) : Result (list Effect) :=
  match buildTradeMessage trade (Ib.commission report) with
  | Err e => Err e
  | Ok msg =>
      let fillTime := Ib.time fill in
      if minutes_us timeTresholdMinutes <? now - fillTime
      then Ok [LogInfo (OldEventNotice timeTresholdMinutes); LogInfo msg]
      else Ok [Telegram msg; Email RECIPIENTS SUBJECT msg; LogInfo msg]
  end.

(** ** [portfolio_monitor.py] *)

(** The types of [src.core.custom_types] and the data manager are imported by
    the program from outside these files; they are modelled by the fields and
    methods the code uses. *)
Record Instrument := {
  symbol : string;
  exchange : string;
  instrumentType : string;
  underlyingSymbol : string
}.

Module Position.
Record t := {
  symbol : string;
  instrument : Instrument
}.
End Position.

Module Portfolio.
(** [truth] is the value of the object in a boolean context ([not
    portfolio]); [positions] is its dictionary, in iteration order. *)
Record t := {
  truth : bool;
  positions : PyDict.t Position.t
}.
End Portfolio.

Module MarketData.
Record t := {
  markPrice : pyfloat;
  last : pyfloat;
  closePrice : pyfloat;
  timestamp : Z
}.
End MarketData.

(** The data manager: the instruments registered with it so far, the best
    market data it currently holds for an instrument ([None] when no provider
    has supplied any), and the ticker its IBKR provider returns. *)
Record DataManager := {
  registered : list Instrument;
  getBestMarketData : Instrument -> option MarketData.t;
  getTicker : string -> option Ib.Ticker
}.

Definition addInstrument (i : Instrument) (rtData : DataManager) : DataManager :=
  {| registered := registered rtData ++ [i];
     getBestMarketData := getBestMarketData rtData;
     getTicker := getTicker rtData |}.

(** The broker client: [RequestClient] may be [None]; [fetchPositions] is the
    snapshot it returns during the call. *)
Record RequestClient := { fetchPositions : Portfolio.t }.
Record InteractiveBrokers := { requestClient : option RequestClient }.

(** One value of [portfolioPrices]: a dictionary with four fixed keys. *)
Record PriceRow := {
  markPrice : pyfloat;
  priceType : string;
  time : TimeStr;
  Close : pyfloat
}.

Record PortfolioTracker := {
  tickerDictionary : gmap string (option Ib.Ticker);
  instrumentDictionary : PyDict.t Instrument;
  portfolioPrices : PyDict.t PriceRow;
  lastPortfolioTime : Z
}.

(** [PortfolioTracker.__init__]; [datetime.min] is the origin of the clock. *)
Definition init : PortfolioTracker :=
  {| tickerDictionary := ∅;
     instrumentDictionary := [];
     portfolioPrices := [];
     lastPortfolioTime := 0 |}.

Definition set_ticker (k : string) (v : option Ib.Ticker) (st : PortfolioTracker)
  : PortfolioTracker :=
  {| tickerDictionary := <[k := v]> (tickerDictionary st);
     instrumentDictionary := instrumentDictionary st;
     portfolioPrices := portfolioPrices st;
     lastPortfolioTime := lastPortfolioTime st |}.

Definition set_instrument (k : string) (v : Instrument) (st : PortfolioTracker)
  : PortfolioTracker :=
  {| tickerDictionary := tickerDictionary st;
     instrumentDictionary := PyDict.set k v (instrumentDictionary st);
     portfolioPrices := portfolioPrices st;
     lastPortfolioTime := lastPortfolioTime st |}.

Definition set_price (k : string) (v : PriceRow) (st : PortfolioTracker)
  : PortfolioTracker :=
  {| tickerDictionary := tickerDictionary st;
     instrumentDictionary := instrumentDictionary st;
     portfolioPrices := PyDict.set k v (portfolioPrices st);
     lastPortfolioTime := lastPortfolioTime st |}.

Definition set_lastPortfolioTime (now : Z) (st : PortfolioTracker)
  : PortfolioTracker :=
  {| tickerDictionary := tickerDictionary st;
     instrumentDictionary := instrumentDictionary st;
     portfolioPrices := portfolioPrices st;
     lastPortfolioTime := now |}.

(** The body of the loop of [updateMarkPrices]: the row stored for one
    instrument, given what [getBestMarketData] returned for it. *)
Definition priceRow (marketData : option MarketData.t) (instrument : Instrument)
  : PriceRow :=
  let '(price, priceType, closePrice) :=
    match marketData with
    | None => (ofZ 0, "N/A"%string, ofZ 0)
    | Some md =>
        if decide (instrumentType instrument = "OPT"%string)
        then (MarketData.markPrice md, "Mark"%string, MarketData.closePrice md)
        else (MarketData.last md, "Last"%string, MarketData.closePrice md)
    end in
  {| markPrice := nan_to_zero price;
     priceType := priceType;
     time := match marketData with
             | Some md => Strftime (MarketData.timestamp md)
             | None => TimeNA
             end;
     Close := nan_to_zero closePrice |}.

(** [close] is accepted and not used in the body. *)
Definition updateMarkPrices (rtData : DataManager) (close : bool)
    (st : PortfolioTracker) : PortfolioTracker :=
  fold_left
    (fun st '(_, instrument) =>
       set_price (symbol instrument)
         (priceRow (getBestMarketData rtData instrument) instrument) st)
    (PyDict.items (instrumentDictionary st)) st.

Definition HEADER : list Cell :=
  [CStr "Symbol"; CStr "Mark Price"; CStr "Price Type"; CStr "Time";
   CStr "Close (Mark)"].

Definition convertDictToList (st : PortfolioTracker) : list (list Cell) :=
  HEADER ::
  map (fun '(symbol, data) =>
         [CStr symbol; CNum (markPrice data); CStr (priceType data);
          CTime (time data); CNum (Close data)])
      (PyDict.items (portfolioPrices st)).

Definition addToInstrumentDictionary (listOfInstruments : list Instrument)
    (st : PortfolioTracker) : PortfolioTracker :=
  fold_left (fun st instrument => set_instrument (symbol instrument) instrument st)
    listOfInstruments st.

(** [getUnderlyings]: the non-empty underlying symbols, through a set.  In
    Python the order of [list(set)] varies with the hash seed; here it is the
    fixed order of [elements], and no property below depends on it. *)
Definition getUnderlyings (positions : list Position.t) : list string :=
  elements
    (fold_left
       (fun (underlyingsSet : gset string) position =>
          if decide (underlyingSymbol (Position.instrument position) = ""%string)
          then underlyingsSet
          else underlyingsSet ∪ {[underlyingSymbol (Position.instrument position)]})
       positions ∅).

Definition ZERO_ROW : PriceRow :=
  {| markPrice := ofZ 0; priceType := "Mark"; time := TimeEmpty; Close := ofZ 0 |}.

Definition update (rtData : DataManager) (close : bool) (st : PortfolioTracker)
  : list (list Cell) * PortfolioTracker :=
  let st' := updateMarkPrices rtData close st in
  (convertDictToList st', st').

Definition writeToGoogleSheets (dataList : list (list Cell)) : Effect :=
  WriteDataToSheet "Maestro" dataList "G" 1.

(** An element of the list handed to [refreshTickerDictionary]: the
    annotation says [Instrument], the scheduler passes [str]. *)
Inductive PyArg : Type :=
| AsInstrument (i : Instrument)
| AsStr (s : string).

(** [instrument.symbol] *)
Definition symbol_of (o : PyArg) : Result string :=
  match o with
  | AsInstrument i => Ok (symbol i)
  | AsStr _ => Err (AttributeError "symbol")
  end.

(** [for instrument in instrumentList: currentSymbols.append(instrument.symbol)] *)
Fixpoint appendSymbols (currentSymbols : list string) (instrumentList : list PyArg)
  : Result (list string) :=
  match instrumentList with
  | [] => Ok currentSymbols
  | o :: rest =>
      match symbol_of o with
      | Err e => Err e
      | Ok s => appendSymbols (currentSymbols ++ [s]) rest
      end
  end.

Section Tracking.

(** The values [Instrument(symbol=..., exchange="SMART")] gives the two
    fields it does not set; the class is declared outside these files. *)
Variables defaultInstrumentType defaultUnderlyingSymbol : string.

Definition smart (symbol : string) : Instrument :=
  {| symbol := symbol;
     exchange := "SMART";
     instrumentType := defaultInstrumentType;
     underlyingSymbol := defaultUnderlyingSymbol |}.

Definition Tracked : Type := PortfolioTracker * DataManager.

(** First loop of [create]: one pass per position. *)
Definition createPosition (acc : Tracked) (position : Position.t) : Tracked :=
  let '(st, rtData) := acc in
  let rtData := addInstrument (Position.instrument position) rtData in
  let st := set_instrument (Position.symbol position)
              (Position.instrument position) st in
  let st := set_ticker (Position.symbol position)
              (getTicker rtData (Position.symbol position)) st in
  (set_price (Position.symbol position) ZERO_ROW st, rtData).

(** Second loop of [create]: one pass per underlying symbol. *)
Definition createUnderlying (acc : Tracked) (underlyingSymbol : string)
  : Tracked :=
  let '(st, rtData) := acc in
  let st := set_ticker underlyingSymbol (getTicker rtData underlyingSymbol) st in
  let st := set_price underlyingSymbol ZERO_ROW st in
  (set_instrument underlyingSymbol (smart underlyingSymbol) st, rtData).

(** [create]; its closing [sleepIBKR(7)] only waits and leaves no trace here. *)
Definition create (ibkr : InteractiveBrokers) (rtData : DataManager)
    (verbose : bool) (st : PortfolioTracker) : Tracked * list Effect :=
  match requestClient ibkr with
  | None => ((st, rtData), [LogError (Lit "Error accessing broker")])
  | Some rc =>
      let positions := fetchPositions rc in
      if negb (Portfolio.truth positions)
      then ((st, rtData),
            [LogInfo (Lit ">>No positions found in the portfolio. Creating empty portfolio tracker.")])
      else
        let values := PyDict.values (Portfolio.positions positions) in
        let acc := fold_left createPosition values (st, rtData) in
        let acc := fold_left createUnderlying (getUnderlyings values) acc in
        (acc,
         (if verbose
          then [LogInfo (Lit "Fetching positions to create  portfolio tracker")]
          else [])
         ++ [LogInfo (Lit "Portfolio tracker created. Waiting for tickers to load...")])
  end.

(** The loop "Add new items" of [refreshTickerDictionary]. *)
Definition addNew (acc : Tracked) (symbol : string) : Tracked :=
  let '(st, rtData) := acc in
  match tickerDictionary st !! symbol with
  | Some _ => acc
  | None =>
      let rtData := addInstrument (smart symbol) rtData in
      let st := set_ticker symbol (getTicker rtData symbol) st in
      (set_price symbol ZERO_ROW st, rtData)
  end.

Definition refreshTickerDictionary (ibkr : InteractiveBrokers)
    (rtData : DataManager) (instrumentList : list PyArg)
    (st : PortfolioTracker) : Outcome Tracked :=
  match requestClient ibkr with
  | None => Returned (st, rtData) [LogError (Lit "Error accessing broker")]
  | Some rc =>
      if decide (size (tickerDictionary st) = 0%nat)
      then let '(acc, effs) := create ibkr rtData true st in Returned acc effs
      else
        let portfolio := fetchPositions rc in
        if negb (Portfolio.truth portfolio)
        then Returned (st, rtData)
               [LogInfo (Lit "No positions found in the portfolio. Creating empty portfolio tracker.")]
        else
          let currentSymbols := PyDict.keys (Portfolio.positions portfolio) in
          let currentPositions := PyDict.values (Portfolio.positions portfolio) in
          let underlyingSymbols := getUnderlyings currentPositions in
          match appendSymbols (currentSymbols ++ underlyingSymbols) instrumentList with
          | Err e => Raised e (st, rtData) []
          | Ok currentSymbols =>
              Returned (fold_left addNew currentSymbols (st, rtData)) []
          end
  end.

End Tracking.

(** ** [main.py]: the scheduled callback *)

(** A reading of [datetime.now()] is the number of microseconds since
    [datetime.min]; the differences the code takes are exact in this unit. *)
Definition hour (t : Z) : Z := (t / seconds_us 3600) mod 24.
Definition minute (t : Z) : Z := (t / seconds_us 60) mod 60.

(** The window [ShortAvailabilityChecker], of which the callback reads and
    clears one flag. *)
Record App := { checkCallBack : bool }.

(** The globals the callback works on. *)
Record World := {
  portfolioTracker : PortfolioTracker;
  dataManager : DataManager;
  callbackCounter : Z;
  app : option App
}.

Definition with_tracked (acc : PortfolioTracker * DataManager) (w : World)
  : World :=
  {| portfolioTracker := fst acc;
     dataManager := snd acc;
     callbackCounter := callbackCounter w;
     app := app w |}.

Definition with_counter (c : Z) (w : World) : World :=
  {| portfolioTracker := portfolioTracker w;
     dataManager := dataManager w;
     callbackCounter := c;
     app := app w |}.

Definition with_app (a : option App) (w : World) : World :=
  {| portfolioTracker := portfolioTracker w;
     dataManager := dataManager w;
     callbackCounter := callbackCounter w;
     app := a |}.

(** The four readings of the clock during one run of [checkConnection], in
    program order. *)
Record Clock := {
  t_status : Z;
  t_track : Z;
  t_next : Z;
  t_log : Z
}.

Definition notifyCallBackStatus (now : Z) (w : World) : World * list Effect :=
  let c := callbackCounter w + 1 in
  if (hour now =? 9) && (minute now =? 50) && (30 <? c)
  then (with_counter 0 w, [LogInfo (CallBackRunning (hour now) (minute now))])
  else (with_counter c w, []).

Section Scheduling.

Variables defaultInstrumentType defaultUnderlyingSymbol : string.

(** [total_seconds() < updateSeconds] divides the elapsed microseconds by
    10^6, rounds the quotient to a float and compares it with an integer.
    Floats below 2^32 lie less than a microsecond apart, so for a spacing of
    magnitude below 2^32 seconds, the default 20 among them, the comparison
    decides as the comparison of the integers written here does; the
    properties of the branch that returns at once are stated within that
    range.  An exception of the refresh leaves through this function. *)
Definition trackPortfolio (currentTime : Z) (broker : InteractiveBrokers)
    (updateSeconds : Z) (manualTickers : list string) (w : World)
  : Outcome World :=
  if currentTime - lastPortfolioTime (portfolioTracker w) <? seconds_us updateSeconds
  then Returned w []
  else
    match refreshTickerDictionary defaultInstrumentType defaultUnderlyingSymbol
            broker (dataManager w) (map AsStr manualTickers) (portfolioTracker w) with
    | Raised e acc effs =>
        Raised e (with_tracked acc w)
          ([LogInfo (Lit ">>refreshing tickers...")] ++ effs)
    | Returned (st, rtData) effs =>
        let close := (hour currentTime =? 22) && (minute currentTime <=? 2) in
        let '(dataList, st) := update rtData close st in
        Returned
          (with_tracked (set_lastPortfolioTime currentTime st, rtData) w)
          ([LogInfo (Lit ">>refreshing tickers...")] ++ effs
           ++ [LogInfo (Lit ">>Updating portfolio prices...");
               LogInfo (Lit ">>Updating Google Sheets...");
               writeToGoogleSheets dataList])
    end.

Definition updateSeconds_default : Z := 20.

(** [checkConnection]: the value is the function's return value. *)
Definition checkConnection (clock : Clock) (brokerClient : InteractiveBrokers)
    (manualTickers : list string) (w : World) : Outcome (World * bool) :=
  let '(w, effs0) := notifyCallBackStatus (t_status clock) w in
  match trackPortfolio (t_track clock) brokerClient updateSeconds_default manualTickers w with
  | Raised e w effs => Raised e (w, false) (effs0 ++ effs)
  | Returned w effs =>
      let nextRunTime := t_next clock + seconds_us 5 in
      let effs := effs0 ++ effs ++ [Schedule nextRunTime manualTickers] in
      match app w with
      | None =>
          Returned (w, false)
            (effs ++ [LogError (Lit "Error checking connection. GUI (app) not initialized")])
      | Some a =>
          if checkCallBack a
          then Returned (with_app (Some {| checkCallBack := false |}) w, true)
                 (effs ++ [LogError (CallBackOk (t_log clock))])
          else Returned (w, true) effs
      end
  end.

End Scheduling.

(** ** Vocabulary of the properties *)

(** A ticker of contract [c] carrying the sample [v]. *)
Definition sample (c : Ib.Contract) (v : pyfloat) : Ticker :=
  {| contract := Some c; shortableShares := v |}.

(** Successive calls of [notifyShortableShares], one per batch. *)
Fixpoint run (batches : list (list Ticker)) (st : Hyst) : Hyst * list Effect :=
  match batches with
  | [] => (st, [])
  | b :: bs =>
      let '(st', effs) := notifyShortableShares b st in
      let '(st'', effs') := run bs st' in
      (st'', effs ++ effs')
  end.

(** An [Emerged] notification for [symbol]: a message sent to the transport
    that reports a positive number of shares. *)
Definition isEmerged (symbol : string) (e : Effect) : bool :=
  match e with
  | Telegram (ShortableMsg s sym) => bool_decide (sym = symbol) && gtb s zeroQ
  | _ => false
  end.

Definition isTelegram (e : Effect) : bool :=
  match e with Telegram _ => true | _ => false end.

Definition isEmail (e : Effect) : bool :=
  match e with Email _ _ _ => true | _ => false end.

Fixpoint count (p : Effect -> bool) (effs : list Effect) : nat :=
  match effs with
  | [] => 0%nat
  | e :: effs' => ((if p e then 1 else 0) + count p effs')%nat
  end.

(** One call per sample: how many [Emerged] notifications each call sent. *)
Fixpoint emergedRun (c : Ib.Contract) (vs : list pyfloat) (st : Hyst) : list nat :=
  match vs with
  | [] => []
  | v :: vs' =>
      let '(st', effs) := notifyShortableShares [sample c v] st in
      count (isEmerged (Ib.symbol c)) effs :: emergedRun c vs' st'
  end.

(** The rule in words: a sample fires when the decided value before it is
    at most zero and its normalized value is positive; the normalized value
    is the decided value for the next sample. *)
Fixpoint emergedSpec (prev : pyfloat) (vs : list pyfloat) : list nat :=
  match vs with
  | [] => []
  | v :: vs' =>
      (if leb prev zeroQ && gtb (normalize v) zeroQ then 1%nat else 0%nat)
      :: emergedSpec (normalize v) vs'
  end.

(** The decided value [shortableSharesDict.get(symbol, 0)]. *)
Definition decided (symbol : string) (st : Hyst) : pyfloat :=
  default (ofZ 0) (shortableSharesDict st !! symbol).

(** The symbols tracked in the state an outcome carries. *)
Definition tracked (acc : PortfolioTracker * DataManager) : gset string :=
  dom (tickerDictionary acc.1).

Definition tracked_after (o : Outcome (PortfolioTracker * DataManager))
  : gset string :=
  match o with
  | Returned acc _ => tracked acc
  | Raised _ acc _ => tracked acc
  end.

Definition isSheetWrite (e : Effect) : bool :=
  match e with WriteDataToSheet _ _ _ _ => true | _ => false end.

(** ** Sample data *)

Definition fill_at (t : Z) : Ib.Fill :=
  {| Ib.execution := {| side := "BOT"; shares := ofZ 100; price := ofZ 10 |};
     Ib.commissionReport := {| Ib.commission := ofZ 1 |};
     Ib.time := t |}.

Definition trade_of (f : Ib.Fill) : Ib.Trade :=
  {| Ib.trade_contract := {| Ib.symbol := "ABC"; Ib.localSymbol := "ABC" |};
     Ib.fills := [f] |}.

Definition anOption : Instrument :=
  {| symbol := "ABC 241220C00100000"; exchange := "SMART";
     instrumentType := "OPT"; underlyingSymbol := "ABC" |}.

Definition aFuture : Instrument :=
  {| symbol := "ESZ4"; exchange := "CME"; instrumentType := "FUT";
     underlyingSymbol := "ES" |}.

Definition aStock : Instrument :=
  {| symbol := "XYZ"; exchange := "SMART"; instrumentType := "STK";
     underlyingSymbol := "" |}.

(** A data manager that has data for everything but [aStock]. *)
Definition someData : DataManager :=
  {| registered := [];
     getBestMarketData := fun i =>
       if decide (symbol i = "XYZ"%string) then None
       else Some {| MarketData.markPrice := ofZ 10; MarketData.last := ofZ 12;
                    MarketData.closePrice := NaN; MarketData.timestamp := 1000 |};
     getTicker := fun _ => None |}.

Definition threeInstruments : PortfolioTracker :=
  addToInstrumentDictionary [anOption; aFuture; aStock] init.

Definition aPosition : Position.t :=
  {| Position.symbol := "ABC 241220C00100000"; Position.instrument := anOption |}.

Definition aPortfolio : Portfolio.t :=
  {| Portfolio.truth := true;
     Portfolio.positions := [("ABC 241220C00100000"%string, aPosition)] |}.

Definition aBroker : InteractiveBrokers :=
  {| requestClient := Some {| fetchPositions := aPortfolio |} |}.

Definition noBroker : InteractiveBrokers := {| requestClient := None |}.

(** A tracker that already follows one symbol. *)
Definition seeded : PortfolioTracker := set_ticker "OLD" None init.

(** A world whose last completed run was at second 100. *)
Definition aWorld : World :=
  {| portfolioTracker := set_lastPortfolioTime (seconds_us 100) seeded;
     dataManager := someData;
     callbackCounter := 0;
     app := Some {| checkCallBack := false |} |}.

Definition clockAt (t : Z) : Clock :=
  {| t_status := t; t_track := t; t_next := t; t_log := t |}.

(** ** [main.py]: the rest of the shortable-share state *)


(** ** Vocabulary of the further properties *)

Definition state_of {S} (o : Outcome S) : S :=
  match o with Returned st _ => st | Raised _ st _ => st end.

Definition effects_of {S} (o : Outcome S) : list Effect :=
  match o with Returned _ effs => effs | Raised _ _ effs => effs end.

(** Every NaN counter lies between 0 and 10. *)
Definition counters_bounded (st : Hyst) : Prop :=
  forall s n, nanCounterDict st !! s = Some n -> 0 <= n <= 10.

(** Every decided value is a number, at most the sentinel. *)
Definition decided_clean (st : Hyst) : Prop :=
  forall s v, shortableSharesDict st !! s = Some v ->
              isnan v = false /\ gtb v SENTINEL = false.

Fixpoint countNaN (vs : list pyfloat) : Z :=
  match vs with
  | [] => 0
  | v :: vs' => (if isnan v then 1 else 0) + countNaN vs'
  end.

Definition has_contract (t : Ticker) : bool :=
  match contract t with Some _ => true | None => false end.

Fixpoint with_contract (ts : list Ticker) : list Ticker :=
  match ts with
  | [] => []
  | t :: ts' => if has_contract t then t :: with_contract ts' else with_contract ts'
  end.

(** The ticker is of another symbol than [s], or of none. *)
Definition other_symbol (s : string) (t : Ticker) : Prop :=
  match contract t with Some c => Ib.symbol c <> s | None => True end.

(** The two lines a notification leaves: the message sent and logged. *)
Definition notification (s : pyfloat) (symbol : string) : list Effect :=
  [Telegram (ShortableMsg s symbol); LogInfo (ShortableMsg s symbol)].

(** Successive runs of [notifyCallBackStatus], one per clock reading. *)
Fixpoint callbacks (readings : list Z) (w : World) : World * list Effect :=
  match readings with
  | [] => (w, [])
  | now :: rest =>
      let '(w', effs) := notifyCallBackStatus now w in
      let '(w'', effs') := callbacks rest w' in
      (w'', effs ++ effs')
  end.

(** A row, a dictionary of rows and a table cell without NaN. *)
Definition nanfree_row (r : PriceRow) : Prop :=
  isnan (markPrice r) = false /\ isnan (Close r) = false.

Definition NanFree (d : PyDict.t PriceRow) : Prop :=
  Forall (fun kv => nanfree_row kv.2) d.

Definition cell_ok (c : Cell) : Prop :=
  match c with CNum x => isnan x = false | _ => True end.

(** A stock held next to an option on it. *)
Definition abcStock : Instrument :=
  {| symbol := "ABC"; exchange := "NYSE"; instrumentType := "STK";
     underlyingSymbol := "" |}.

Definition stockAndOption : Portfolio.t :=
  {| Portfolio.truth := true;
     Portfolio.positions :=
       [("ABC"%string, {| Position.symbol := "ABC"; Position.instrument := abcStock |});
        ("ABC 241220C00100000"%string, aPosition)] |}.

Definition bothBroker : InteractiveBrokers :=
  {| requestClient := Some {| fetchPositions := stockAndOption |} |}.

(** A symbol newly taken up by the refresh: tracked, with the zero row, and
    registered with the data manager as a SMART instrument. *)
Definition fresh_row (dt du : string) (s : string)
    (acc : PortfolioTracker * DataManager) : Prop :=
  s ∈ tracked acc
  /\ PyDict.get s (portfolioPrices acc.1) = Some ZERO_ROW
  /\ smart dt du s ∈ registered acc.2.

(** ** [main.py]: the instruments to track at start-up *)

(** [if symbol not in instrumentDict: instrumentDict[symbol] =
    Instrument(symbol=symbol, exchange="SMART")] *)
Definition addIfAbsent (dt du : string) (instrumentDict : PyDict.t Instrument)
    (symbol : string) : PyDict.t Instrument :=
  if PyDict.mem symbol instrumentDict then instrumentDict
  else PyDict.set symbol (smart dt du symbol) instrumentDict.

(** The dictionary [instrumentsToTrack] builds from a portfolio: the
    instruments of the positions under their own symbols, then the
    underlyings and the manual tickers that are not there yet. *)
Definition instrumentDictOf (dt du : string) (portfolio : Portfolio.t)
    (manualTickers : list string) : PyDict.t Instrument :=
  let currentPositions := PyDict.values (Portfolio.positions portfolio) in
  let instrumentDict :=
    fold_left
      (fun d position =>
         PyDict.set (symbol (Position.instrument position))
           (Position.instrument position) d)
      currentPositions [] in
  let underlyingSymbols := getUnderlyings currentPositions in
  let instrumentDict := fold_left (addIfAbsent dt du) underlyingSymbols instrumentDict in
  fold_left (addIfAbsent dt du) manualTickers instrumentDict.

Definition instrumentsToTrack (dt du : string) (broker : InteractiveBrokers)
    (manualTickers : list string) : list Instrument :=
  match requestClient broker with
  | None => []
  | Some rc =>
      PyDict.values (instrumentDictOf dt du (fetchPositions rc) manualTickers)
  end.

(** Every entry sits under the symbol of its instrument. *)
Definition keyed (d : PyDict.t Instrument) : Prop :=
  Forall (fun kv => kv.1 = symbol kv.2) d.

Definition isSchedule (e : Effect) : bool :=
  match e with Schedule _ _ => true | _ => false end.

(** ** [portfolio_monitor.py]: connecting to the spreadsheet *)

(** What one construction of [GoogleSheetsInterface] comes to: an object
    that is connected, one that is not, or an exception.  The class is
    outside these files; its outcome at each attempt is an input. *)
Inductive Attempt : Type :=
| Connected
| NotConnected
| Failed.

(** The lines [connectGoogleSheets] logs. *)
Inductive SheetsLog : Type :=
| Trying (retries : Z)
| Succeeded
| FailedLeft (left : Z)
| ErrorConnecting.

(** The loop [for i in range(retries)], from index [i] with [n] passes left.
    The value is the index of the attempt whose object is returned, or
    [None] when the loop ends and the method raises. *)
Fixpoint connectLoop (attempt : nat -> Attempt) (retries : Z) (i n : nat)
  : option nat * list SheetsLog :=
  match n with
  | O => (None, [])
  | S n' =>
      match attempt i with
      | Connected => (Some i, [Succeeded])
      | NotConnected =>
          let '(r, logs) := connectLoop attempt retries (S i) n' in
          (r, FailedLeft (retries - Z.of_nat i - 1) :: logs)
      | Failed =>
          let '(r, logs) := connectLoop attempt retries (S i) n' in
          (r, ErrorConnecting :: logs)
      end
  end.

Definition connectGoogleSheets (attempt : nat -> Attempt) (retries : Z)
  : option nat * list SheetsLog :=
  let '(r, logs) := connectLoop attempt retries 0 (Z.to_nat retries) in
  (r, Trying retries :: logs).

(** A ticker of contract [c] that carries a valid sample. *)
Definition valid_sample_of (c : Ib.Contract) (t : Ticker) : Prop :=
  contract t = Some c /\ isnan (shortableShares t) = false.

(** * Properties *)

(** ** Floats *)

Lemma isnan_normalize v : isnan v = false -> isnan (normalize v) = false.
Proof.
  unfold normalize. destruct (gtb v SENTINEL); [reflexivity | trivial].
Qed.

Lemma gtb_zero_not_leb q : gtb q zeroQ = true -> leb q zeroQ = false.
Proof.
  destruct q as [| |q|]; simpl; try done.
  intros H. apply bool_decide_eq_true in H.
  apply bool_decide_eq_false. by apply Qclt_nge.
Qed.

Lemma gtb_zero_not_eqb q : gtb q zeroQ = true -> eqb q zeroQ = false.
Proof.
  destruct q as [| |q|]; simpl; try done.
  intros H. apply bool_decide_eq_true in H.
  apply bool_decide_eq_false. intros ->.
  by apply (irreflexivity Qclt zeroQ).
Qed.

Lemma normalize_above v : gtb v SENTINEL = true -> normalize v = ofZ 0.
Proof. unfold normalize. by intros ->. Qed.

Lemma normalize_below v : gtb v SENTINEL = false -> normalize v = v.
Proof. unfold normalize. by intros ->. Qed.

(** ** Shortable-share notifications *)

Lemma set_counter_twice s a b st :
  set_counter s a (set_counter s b st) = set_counter s a st.
Proof. unfold set_counter; simpl. by rewrite insert_insert_eq. Qed.

(** A valid sample for a symbol that has a counter: the counter is left
    alone, the normalized sample is stored, and the message goes out exactly
    when the notifying condition holds. *)
Lemma notifyTicker_valid c v n st :
  isnan v = false ->
  nanCounterDict st !! Ib.symbol c = Some n ->
  n <= 10 ->
  notifyTicker (sample c v) st =
  Returned (set_shares (Ib.symbol c) (normalize v) st)
    (if depleted (decided (Ib.symbol c) st) (normalize v)
        || emerged (decided (Ib.symbol c) st) (normalize v)
     then [Telegram (ShortableMsg (normalize v) (Ib.symbol c));
           LogInfo (ShortableMsg (normalize v) (Ib.symbol c))]
     else []).
Proof.
  intros Hv Hn Hle. unfold notifyTicker; simpl. rewrite Hv, Hn.
  assert ((10 <? n) = false) as -> by lia.
  by rewrite (isnan_normalize _ Hv).
Qed.

(** A valid sample for a symbol without a counter: the lookup raises before
    anything is sent or stored. *)
Lemma notifyTicker_no_counter c v st :
  isnan v = false ->
  nanCounterDict st !! Ib.symbol c = None ->
  notifyTicker (sample c v) st = Raised (KeyError (Ib.symbol c)) st [].
Proof.
  intros Hv Hn. unfold notifyTicker; simpl. by rewrite Hv, Hn.
Qed.

(** A NaN sample while the counter is below ten: it is counted and nothing
    else happens. *)
Lemma notifyTicker_nan_below c st :
  default 0 (nanCounterDict st !! Ib.symbol c) < 10 ->
  notifyTicker (sample c NaN) st =
  Returned
    (set_counter (Ib.symbol c) (default 0 (nanCounterDict st !! Ib.symbol c) + 1) st)
    [].
Proof.
  intros Hlt. unfold notifyTicker; simpl. rewrite lookup_insert_eq.
  destruct (10 <? _) eqn:E; [lia|]. simpl.
  unfold depleted, emerged; simpl. by rewrite !andb_false_r.
Qed.

(** The loop over a concatenation is the loop over the first part followed,
    unless that raised, by the loop over the second. *)
Lemma notifyLoop_app ts1 ts2 st :
  notifyLoop (ts1 ++ ts2) st =
  match notifyLoop ts1 st with
  | Returned st' effs =>
      match notifyLoop ts2 st' with
      | Returned st'' effs' => Returned st'' (effs ++ effs')
      | Raised e st'' effs' => Raised e st'' (effs ++ effs')
      end
  | Raised e st' effs => Raised e st' effs
  end.
Proof.
  revert st. induction ts1 as [|t ts1 IH]; intros st; simpl.
  - by destruct (notifyLoop ts2 st).
  - destruct (notifyTicker t st) as [st1 e1|x st1 e1]; [|done].
    rewrite IH. destruct (notifyLoop ts1 st1) as [st2 e2|x st2 e2]; [|done].
    destruct (notifyLoop ts2 st2); by rewrite app_assoc.
Qed.

(** When no ticker raises, cutting the stream into calls in any way gives
    the same final state and the same effects. *)
Lemma run_concat batches st st' effs :
  notifyLoop (concat batches) st = Returned st' effs ->
  run batches st = (st', effs).
Proof.
  revert st st' effs. induction batches as [|b bs IH]; intros st st' effs; simpl.
  - by intros [= -> <-].
  - rewrite notifyLoop_app. unfold notifyShortableShares.
    destruct (notifyLoop b st) as [st1 e1|x st1 e1]; [|done].
    destruct (notifyLoop (concat bs) st1) as [st2 e2|x st2 e2] eqn:E; [|done].
    intros [= <- <-]. by rewrite (IH _ _ _ E).
Qed.

(** [k] NaN samples in a row, while the counter stays at or below ten, only
    count. *)
Lemma notifyLoop_nan c k st :
  default 0 (nanCounterDict st !! Ib.symbol c) + Z.of_nat (S k) <= 10 ->
  notifyLoop (replicate (S k) (sample c NaN)) st =
  Returned
    (set_counter (Ib.symbol c)
       (default 0 (nanCounterDict st !! Ib.symbol c) + Z.of_nat (S k)) st) [].
Proof.
  revert st. induction k as [|k IH]; intros st Hle.
  - simpl. rewrite notifyTicker_nan_below by lia. done.
  - change (replicate (S (S k)) (sample c NaN))
      with (sample c NaN :: replicate (S k) (sample c NaN)).
    cbn [notifyLoop]. rewrite notifyTicker_nan_below by lia.
    rewrite IH; simpl; rewrite lookup_insert_eq; simpl; [|lia].
    rewrite set_counter_twice. do 2 f_equal. lia.
Qed.

(** The NaN sample that finds the counter at ten: the counter is reset and
    a zero is decided. *)
Lemma notifyTicker_nan_eleventh c st :
  nanCounterDict st !! Ib.symbol c = Some 10 ->
  shortableSharesDict st !! Ib.symbol c = None ->
  notifyTicker (sample c NaN) st =
  Returned (set_shares (Ib.symbol c) (ofZ 0) (set_counter (Ib.symbol c) 0 st)) [].
Proof.
  intros Hn Hs. unfold notifyTicker; simpl. rewrite Hn; simpl.
  rewrite lookup_insert_eq; simpl. rewrite Hs; simpl.
  by rewrite set_counter_twice.
Qed.

(** C2: a symbol that has neither a counter nor a decided value is fed NaN
    samples only, cut into calls in any way.  After nine samples nothing was
    sent, no value is decided and the counter is 9; the eleventh sample
    decides the value 0 and resets the counter to 0. *)
Theorem nan_samples_nine_and_eleven (c : Ib.Contract) (st : Hyst)
    (batches9 batches11 : list (list Ticker)) :
  nanCounterDict st !! Ib.symbol c = None ->
  shortableSharesDict st !! Ib.symbol c = None ->
  concat batches9 = replicate 9 (sample c NaN) ->
  concat batches11 = replicate 11 (sample c NaN) ->
  (run batches9 st = (set_counter (Ib.symbol c) 9 st, [])
   /\ nanCounterDict (run batches9 st).1 !! Ib.symbol c = Some 9
   /\ shortableSharesDict (run batches9 st).1 !! Ib.symbol c = None)
  /\
  (run batches11 st
     = (set_shares (Ib.symbol c) (ofZ 0) (set_counter (Ib.symbol c) 0 st), [])
   /\ nanCounterDict (run batches11 st).1 !! Ib.symbol c = Some 0
   /\ shortableSharesDict (run batches11 st).1 !! Ib.symbol c = Some (ofZ 0)).
Proof.
  intros Hn Hs H9 H11.
  assert (run batches9 st = (set_counter (Ib.symbol c) 9 st, [])) as E9.
  { apply run_concat. rewrite H9.
    rewrite (notifyLoop_nan c 8 st); rewrite Hn; simpl; [done | lia]. }
  assert (run batches11 st
          = (set_shares (Ib.symbol c) (ofZ 0) (set_counter (Ib.symbol c) 0 st), []))
    as E11.
  { apply run_concat. rewrite H11.
    change (replicate 11 (sample c NaN))
      with (replicate 10 (sample c NaN) ++ [sample c NaN]).
    rewrite notifyLoop_app, (notifyLoop_nan c 9 st); rewrite Hn; simpl; [|lia].
    rewrite notifyTicker_nan_eleventh; simpl;
      [| by rewrite lookup_insert_eq | done].
    by rewrite set_counter_twice. }
  rewrite E9, E11; simpl. rewrite !lookup_insert_eq. by rewrite Hs.
Qed.

Lemma nan_samples_nine_and_eleven_witness :
  let c := {| Ib.symbol := "ABC"; Ib.localSymbol := "ABC" |} in
  let st := {| shortableSharesDict := ∅; nanCounterDict := ∅ |} in
  (run (replicate 9 [sample c NaN]) st = (set_counter "ABC" 9 st, [])
   /\ nanCounterDict (run (replicate 9 [sample c NaN]) st).1 !! "ABC" = Some 9
   /\ shortableSharesDict (run (replicate 9 [sample c NaN]) st).1 !! "ABC" = None)
  /\
  (run (replicate 11 [sample c NaN]) st
     = (set_shares "ABC" (ofZ 0) (set_counter "ABC" 0 st), [])
   /\ nanCounterDict (run (replicate 11 [sample c NaN]) st).1 !! "ABC" = Some 0
   /\ shortableSharesDict (run (replicate 11 [sample c NaN]) st).1 !! "ABC"
      = Some (ofZ 0)).
Proof.
  intros c st.
  apply (nan_samples_nine_and_eleven c st
           (replicate 9 [sample c NaN]) (replicate 11 [sample c NaN]));
    reflexivity.
Defined.

Lemma gtb_sentinel_valid v : gtb v SENTINEL = true -> isnan v = false.
Proof. by destruct v. Qed.

Lemma notifyTicker_above_sentinel c v st :
  gtb v SENTINEL = true ->
  notifyTicker (sample c v) st = notifyTicker (sample c (ofZ 0)) st.
Proof.
  intros Hv. unfold notifyTicker; simpl.
  rewrite (gtb_sentinel_valid _ Hv), (normalize_above _ Hv).
  reflexivity.
Qed.

Lemma notifyLoop_cons_eq t1 t2 rest st :
  notifyTicker t1 st = notifyTicker t2 st ->
  notifyLoop (t1 :: rest) st = notifyLoop (t2 :: rest) st.
Proof. simpl. by intros ->. Qed.

Lemma count_emerged_msg sym s :
  count (isEmerged sym) [Telegram (ShortableMsg s sym); LogInfo (ShortableMsg s sym)]
  = if gtb s zeroQ then 1%nat else 0%nat.
Proof.
  cbn [count isEmerged]. rewrite bool_decide_eq_true_2 by done.
  by destruct (gtb s zeroQ).
Qed.

(** How many [Emerged] notifications a valid sample sends. *)
Lemma emerged_count_valid c v n st :
  isnan v = false ->
  nanCounterDict st !! Ib.symbol c = Some n ->
  n <= 10 ->
  notifyShortableShares [sample c v] st =
    (set_shares (Ib.symbol c) (normalize v) st,
     (notifyShortableShares [sample c v] st).2)
  /\ count (isEmerged (Ib.symbol c)) (notifyShortableShares [sample c v] st).2
     = (if leb (decided (Ib.symbol c) st) zeroQ && gtb (normalize v) zeroQ
        then 1%nat else 0%nat)
  /\ (count isTelegram (notifyShortableShares [sample c v] st).2 <= 1)%nat.
Proof.
  intros Hv Hn Hle. unfold notifyShortableShares. cbn [notifyLoop].
  rewrite (notifyTicker_valid c v n st Hv Hn Hle). cbn [snd].
  rewrite app_nil_r.
  split; [reflexivity|].
  destruct (depleted _ _ || emerged _ _) eqn:E.
  - rewrite count_emerged_msg. split; [|cbn; lia].
    unfold depleted, emerged in E.
    destruct (gtb (normalize v) zeroQ) eqn:G.
    + rewrite (gtb_zero_not_eqb _ G), andb_false_r, !andb_true_r in E.
      rewrite andb_true_r. simpl in E. by rewrite E.
    + by rewrite andb_false_r.
  - unfold emerged in E. apply orb_false_elim in E as [_ ->].
    split; [reflexivity | cbn; lia].
Qed.

Lemma emergedSpec_positive prev vs :
  gtb prev zeroQ = true ->
  Forall (fun v => gtb (normalize v) zeroQ = true) vs ->
  emergedSpec prev vs = replicate (length vs) 0%nat.
Proof.
  intros Hp Hvs. revert prev Hp.
  induction Hvs as [|v vs Hv _ IH]; intros prev Hp; simpl; [done|].
  rewrite (gtb_zero_not_leb _ Hp); simpl. by rewrite IH.
Qed.

Lemma emergedRun_spec c vs : forall n st,
  nanCounterDict st !! Ib.symbol c = Some n ->
  n <= 10 ->
  Forall (fun v => isnan v = false) vs ->
  emergedRun c vs st = emergedSpec (decided (Ib.symbol c) st) vs.
Proof.
  induction vs as [|v vs IH]; intros n st Hn Hle Hvs; [done|].
  inversion Hvs as [|? ? Hv Hvs']; subst.
  destruct (emerged_count_valid c v n st Hv Hn Hle) as (Est & Ecount & _).
  cbn [emergedRun emergedSpec].
  rewrite Est at 1. rewrite Ecount. f_equal.
  rewrite (IH n); [| done | done | done].
  unfold decided; simpl. by rewrite lookup_insert_eq.
Qed.

(** X24: for a symbol that has a counter entry and a stream of valid
    samples, each processed by one call, a sample sends an [Emerged]
    notification iff the decided value stored before it is at most zero and
    the sample, normalized (a value above 2,147,483,000 counts as 0), is
    positive; it sends it once; and further positive samples after a positive
    one send none. *)
Theorem emerged_iff_transition (c : Ib.Contract) (st : Hyst) (n : Z)
    (vs : list pyfloat) :
  nanCounterDict st !! Ib.symbol c = Some n ->
  n <= 10 ->
  Forall (fun v => isnan v = false) vs ->
  emergedRun c vs st = emergedSpec (decided (Ib.symbol c) st) vs
  /\ (forall v vs', vs = v :: vs' ->
        (count (isEmerged (Ib.symbol c)) (notifyShortableShares [sample c v] st).2
           = 1%nat
         <-> leb (decided (Ib.symbol c) st) zeroQ = true
             /\ gtb (normalize v) zeroQ = true)
        /\ (count (isEmerged (Ib.symbol c))
              (notifyShortableShares [sample c v] st).2 <= 1)%nat
        /\ decided (Ib.symbol c) (notifyShortableShares [sample c v] st).1
           = normalize v
        /\ (gtb (normalize v) zeroQ = true ->
            Forall (fun v' => gtb (normalize v') zeroQ = true) vs' ->
            emergedRun c vs' (notifyShortableShares [sample c v] st).1
            = replicate (length vs') 0%nat)).
Proof.
  intros Hn Hle Hvs. split; [by apply (emergedRun_spec c vs n)|].
  intros v vs' ->. inversion Hvs as [|? ? Hv Hvs']; subst.
  destruct (emerged_count_valid c v n st Hv Hn Hle) as (Est & Ecount & _).
  rewrite Ecount. rewrite Est. simpl.
  repeat split.
  - destruct (leb _ _ && gtb _ _) eqn:E; [|done].
    by apply andb_prop in E as [? _].
  - destruct (leb _ _ && gtb _ _) eqn:E; [|done].
    by apply andb_prop in E as [_ ?].
  - by intros [-> ->].
  - destruct (leb _ _ && gtb _ _); lia.
  - unfold decided; simpl. by rewrite lookup_insert_eq.
  - intros Hpos Hall.
    rewrite (emergedRun_spec c vs' n); [| done | done | done].
    apply emergedSpec_positive; [|done].
    unfold decided; simpl. by rewrite lookup_insert_eq.
Qed.

Lemma emerged_iff_transition_witness :
  let c := {| Ib.symbol := "ABC"; Ib.localSymbol := "ABC" |} in
  let st := {| shortableSharesDict := {["ABC"%string := ofZ (-1)]};
               nanCounterDict := {["ABC"%string := 0]} |} in
  emergedRun c [ofZ 0; ofZ 500; ofZ 700; ofZ 0; ofZ 3000000000; ofZ 40] st
  = [0; 1; 0; 0; 0; 1]%nat.
Proof.
  intros c st.
  rewrite (proj1 (emerged_iff_transition c st 0
             [ofZ 0; ofZ 500; ofZ 700; ofZ 0; ofZ 3000000000; ofZ 40]
             eq_refl ltac:(lia) ltac:(repeat constructor))).
  vm_compute. reflexivity.
Defined.


(** C8: a valid sample above the sentinel, 3,000,000,000 in particular, is
    normalized to 0 before the comparison: wherever it stands in a batch the
    call does exactly what it does on the sample 0, and for a symbol with a
    counter entry the value decided is 0 and no [Emerged] notification is
    sent. *)
Theorem sentinel_sample_normalized (v : pyfloat) (c : Ib.Contract)
    (pre rest : list Ticker) (st : Hyst) :
  gtb v SENTINEL = true ->
  normalize v = ofZ 0
  /\ notifyShortableShares (pre ++ sample c v :: rest) st
     = notifyShortableShares (pre ++ sample c (ofZ 0) :: rest) st
  /\ (forall n, nanCounterDict st !! Ib.symbol c = Some n -> n <= 10 ->
      decided (Ib.symbol c) (notifyShortableShares [sample c v] st).1 = ofZ 0
      /\ count (isEmerged (Ib.symbol c))
           (notifyShortableShares [sample c v] st).2 = 0%nat).
Proof.
  intros Hv. split; [by apply normalize_above|]. split.
  - unfold notifyShortableShares. rewrite !notifyLoop_app.
    destruct (notifyLoop pre st) as [st1 e1|x st1 e1]; [|done].
    by rewrite (notifyLoop_cons_eq _ _ rest st1
                  (notifyTicker_above_sentinel c v st1 Hv)).
  - intros n Hn Hle.
    destruct (emerged_count_valid c v n st (gtb_sentinel_valid _ Hv) Hn Hle)
      as (Est & Ecount & _).
    rewrite Ecount, Est, (normalize_above _ Hv). simpl. split.
    + unfold decided; simpl. by rewrite lookup_insert_eq.
    + by rewrite andb_false_r.
Qed.

Lemma sentinel_sample_normalized_witness :
  let c := {| Ib.symbol := "ABC"; Ib.localSymbol := "ABC" |} in
  let st := {| shortableSharesDict := {["ABC"%string := ofZ 0]};
               nanCounterDict := {["ABC"%string := 3]} |} in
  gtb (ofZ 3000000000) SENTINEL = true
  /\ normalize (ofZ 3000000000) = ofZ 0
  /\ notifyShortableShares ([] ++ sample c (ofZ 3000000000) :: []) st
     = notifyShortableShares ([] ++ sample c (ofZ 0) :: []) st
  /\ (forall n, nanCounterDict st !! Ib.symbol c = Some n -> n <= 10 ->
      decided (Ib.symbol c)
        (notifyShortableShares [sample c (ofZ 3000000000)] st).1 = ofZ 0
      /\ count (isEmerged (Ib.symbol c))
           (notifyShortableShares [sample c (ofZ 3000000000)] st).2 = 0%nat).
Proof.
  intros c st. split; [reflexivity|].
  apply (sentinel_sample_normalized (ofZ 3000000000) c [] [] st).
  reflexivity.
Defined.

(** C9: a valid sample for a symbol without a counter entry raises
    [KeyError] at the counter lookup; the handler prints it.  The tickers
    before it were processed, this one sends nothing and stores nothing, and
    the tickers after it are never visited: the result does not depend on
    them. *)
Theorem first_valid_sample_raises (pre rest : list Ticker) (c : Ib.Contract)
    (v : pyfloat) (st st1 : Hyst) (effs1 : list Effect) :
  notifyLoop pre st = Returned st1 effs1 ->
  isnan v = false ->
  nanCounterDict st1 !! Ib.symbol c = None ->
  notifyTicker (sample c v) st1 = Raised (KeyError (Ib.symbol c)) st1 []
  /\ notifyShortableShares (pre ++ sample c v :: rest) st
     = (st1, effs1 ++ [Print (UnexpectedError (Ib.symbol c))]).
Proof.
  intros Hpre Hv Hn.
  pose proof (notifyTicker_no_counter c v st1 Hv Hn) as E.
  split; [exact E|].
  unfold notifyShortableShares. rewrite notifyLoop_app, Hpre.
  cbn [notifyLoop]. rewrite E. by rewrite app_nil_r.
Qed.

Lemma first_valid_sample_raises_witness :
  let abc := {| Ib.symbol := "ABC"; Ib.localSymbol := "ABC" |} in
  let xyz := {| Ib.symbol := "XYZ"; Ib.localSymbol := "XYZ" |} in
  let st := {| shortableSharesDict := ∅; nanCounterDict := ∅ |} in
  notifyTicker (sample abc (ofZ 100)) (set_counter "XYZ" 1 st)
    = Raised (KeyError "ABC") (set_counter "XYZ" 1 st) []
  /\ notifyShortableShares
       ([sample xyz NaN] ++ sample abc (ofZ 100) :: [sample xyz (ofZ 5)]) st
     = (set_counter "XYZ" 1 st, [] ++ [Print (UnexpectedError "ABC")]).
Proof.
  intros abc xyz st.
  apply (first_valid_sample_raises [sample xyz NaN] [sample xyz (ofZ 5)]
           abc (ofZ 100) st (set_counter "XYZ" 1 st) []); reflexivity.
Defined.

(** ** Insertion-ordered dictionaries *)

Lemma get_set_eq {V} k (v : V) d : PyDict.get k (PyDict.set k v d) = Some v.
Proof.
  induction d as [|[k' v'] d IH]; simpl.
  - by rewrite decide_True.
  - destruct (decide (k = k')) as [->|Hne]; simpl.
    + by rewrite decide_True.
    + by rewrite decide_False.
Qed.

Lemma get_set_ne {V} k k' (v : V) d :
  k <> k' -> PyDict.get k' (PyDict.set k v d) = PyDict.get k' d.
Proof.
  intros Hne. induction d as [|[k0 v0] d IH]; simpl.
  - by rewrite decide_False.
  - destruct (decide (k = k0)) as [->|Hne0]; simpl.
    + by rewrite !decide_False.
    + by rewrite IH.
Qed.

(** Assigning to a present key keeps every key at its place. *)
Lemma keys_set_present {V} k (v v0 : V) d :
  PyDict.get k d = Some v0 -> PyDict.keys (PyDict.set k v d) = PyDict.keys d.
Proof.
  unfold PyDict.keys. induction d as [|[k' v'] d IH]; cbn [PyDict.get PyDict.set]; [done|].
  destruct (decide (k = k')) as [->|Hne]; [done|].
  intros H. rewrite !fmap_cons. by rewrite IH.
Qed.

(** Assigning to an absent key appends it. *)
Lemma keys_set_absent {V} k (v : V) d :
  PyDict.get k d = None -> PyDict.keys (PyDict.set k v d) = PyDict.keys d ++ [k].
Proof.
  unfold PyDict.keys. induction d as [|[k' v'] d IH]; cbn [PyDict.get PyDict.set]; [done|].
  destruct (decide (k = k')) as [->|Hne]; [done|].
  intros H. rewrite !fmap_cons. by rewrite IH.
Qed.

(** ** The instrument dictionary *)

(** C4, as the code has it: an instrument added for an already-known symbol
    replaces the stored one.  After two additions with the same symbol, in
    two calls or in one, the dictionary holds the second instrument and so
    its exchange; the symbol keeps its place in the iteration order and the
    other entries are untouched. *)
Theorem addToInstrumentDictionary_last_wins (a b : Instrument)
    (st : PortfolioTracker) :
  symbol b = symbol a ->
  let st1 := addToInstrumentDictionary [a] st in
  let st2 := addToInstrumentDictionary [b] st1 in
  PyDict.get (symbol a) (instrumentDictionary st2) = Some b
  /\ exchange <$> PyDict.get (symbol a) (instrumentDictionary st2)
     = Some (exchange b)
  /\ addToInstrumentDictionary [a; b] st = st2
  /\ PyDict.keys (instrumentDictionary st2) = PyDict.keys (instrumentDictionary st1)
  /\ (forall k, k <> symbol a ->
      PyDict.get k (instrumentDictionary st2) = PyDict.get k (instrumentDictionary st)).
Proof.
  intros Hsym st1 st2. subst st1 st2. cbn [addToInstrumentDictionary fold_left].
  rewrite Hsym. cbn [set_instrument instrumentDictionary].
  rewrite get_set_eq. repeat split.
  - by rewrite (keys_set_present _ b a) by apply get_set_eq.
  - intros k Hk. by rewrite !get_set_ne.
Qed.

Lemma addToInstrumentDictionary_last_wins_witness :
  let a := {| symbol := "ABC"; exchange := "SMART"; instrumentType := "STK";
              underlyingSymbol := "" |} in
  let b := {| symbol := "ABC"; exchange := "NYSE"; instrumentType := "STK";
              underlyingSymbol := "" |} in
  exchange <$> PyDict.get "ABC"
    (instrumentDictionary
       (addToInstrumentDictionary [b] (addToInstrumentDictionary [a] init)))
  = Some "NYSE"%string.
Proof.
  intros a b.
  exact (proj1 (proj2 (addToInstrumentDictionary_last_wins a b init eq_refl))).
Defined.

(** C4 as stated fails: the exchange seen first is not retained. *)
Lemma first_seen_exchange_counterexample :
  let a := {| symbol := "ABC"; exchange := "SMART"; instrumentType := "STK";
              underlyingSymbol := "" |} in
  let b := {| symbol := "ABC"; exchange := "NYSE"; instrumentType := "STK";
              underlyingSymbol := "" |} in
  let st1 := addToInstrumentDictionary [a] init in
  let st2 := addToInstrumentDictionary [b] st1 in
  exchange <$> PyDict.get "ABC" (instrumentDictionary st1) = Some "SMART"%string
  /\ exchange <$> PyDict.get "ABC" (instrumentDictionary st2) = Some "NYSE"%string
  /\ exchange <$> PyDict.get "ABC" (instrumentDictionary st2)
     <> exchange <$> PyDict.get "ABC" (instrumentDictionary st1).
Proof. vm_compute. repeat split; congruence. Qed.

(** ** Relaying fills *)

(** C5, as the code has it: the age filter sits in the commission-report
    handler only.  For a trade whose last fill has a finite number of shares,
    a commission report whose fill is more than two minutes older than the
    clock is logged and sent to no transport; one that is at most two minutes
    old goes to telegram and to email and is logged.  The execution handler
    reads no clock: it sends to telegram and logs whatever the age. *)
Theorem commission_relay_by_age (now : Z) (trade : Ib.Trade) (fill f : Ib.Fill)
    (report : Ib.CommissionReport) (n : Z) :
  last (Ib.fills trade) = Some f ->
  py_int (shares (Ib.execution f)) = Ok n ->
  let msg c := TradeMsg (Ib.execution f)
                 (Ib.localSymbol (Ib.trade_contract trade)) c in
  (minutes_us 2 < now - Ib.time fill ->
   onCommission now trade fill report
   = Ok [LogInfo (OldEventNotice 2); LogInfo (msg (Ib.commission report))])
  /\ (now - Ib.time fill <= minutes_us 2 ->
      onCommission now trade fill report
      = Ok [Telegram (msg (Ib.commission report));
            Email RECIPIENTS SUBJECT (msg (Ib.commission report));
            LogInfo (msg (Ib.commission report))])
  /\ onExecDetails trade fill
     = Ok [Telegram (msg (Ib.commission (Ib.commissionReport fill)));
           LogInfo (msg (Ib.commission (Ib.commissionReport fill)))].
Proof.
  intros Hlast Hint msg. unfold onCommission, onExecDetails, buildTradeMessage.
  rewrite Hlast, Hint. unfold timeTresholdMinutes. repeat split.
  - intros Hold. by rewrite (proj2 (Z.ltb_lt _ _) Hold).
  - intros Hnew. by rewrite (proj2 (Z.ltb_ge _ _) Hnew).
Qed.

Lemma commission_relay_by_age_witness :
  let old := fill_at 0 in
  let fresh := fill_at (seconds_us 270) in
  let now := seconds_us 300 in
  let report := {| Ib.commission := ofZ 1 |} in
  (exists effs, onCommission now (trade_of old) old report = Ok effs
                /\ count isTelegram effs = 0%nat /\ count isEmail effs = 0%nat)
  /\ onCommission now (trade_of fresh) fresh report
     = Ok [Telegram (TradeMsg (Ib.execution fresh) "ABC" (ofZ 1));
           Email RECIPIENTS SUBJECT (TradeMsg (Ib.execution fresh) "ABC" (ofZ 1));
           LogInfo (TradeMsg (Ib.execution fresh) "ABC" (ofZ 1))].
Proof.
  intros old fresh now report. split.
  - eexists. split.
    + apply (proj1 (commission_relay_by_age now (trade_of old) old old report 100
                      eq_refl eq_refl)).
      vm_compute. reflexivity.
    + split; reflexivity.
  - apply (proj1 (proj2 (commission_relay_by_age now (trade_of fresh) fresh fresh
                           report 100 eq_refl eq_refl))).
    vm_compute. discriminate.
Defined.

(** C5 as stated fails for execution events: one whose fill is five minutes
    old is sent to telegram. *)
Lemma old_execution_relayed_counterexample :
  let old := fill_at 0 in
  let now := seconds_us 300 in
  minutes_us 2 < now - Ib.time old
  /\ exists effs, onExecDetails (trade_of old) old = Ok effs
                  /\ count isTelegram effs = 1%nat.
Proof.
  split; [vm_compute; reflexivity|].
  eexists. split; reflexivity.
Qed.

(** ** Price rows *)

Lemma fold_prices_get (rtData : DataManager) (i : Instrument)
    (l : list (string * Instrument)) : forall st,
  (forall k' i', (k', i') ∈ l -> symbol i' = symbol i -> i' = i) ->
  (exists k, (k, i) ∈ l)
  \/ PyDict.get (symbol i) (portfolioPrices st)
     = Some (priceRow (getBestMarketData rtData i) i) ->
  PyDict.get (symbol i)
    (portfolioPrices
       (fold_left
          (fun st '(_, instrument) =>
             set_price (symbol instrument)
               (priceRow (getBestMarketData rtData instrument) instrument) st)
          l st))
  = Some (priceRow (getBestMarketData rtData i) i).
Proof.
  induction l as [|[k0 i0] l IH]; intros st Huniq Hin; cbn [fold_left].
  - destruct Hin as [[k Hk]|H]; [by apply elem_of_nil in Hk | done].
  - apply IH.
    + intros k' i' Hk'. apply (Huniq k' i'). by right.
    + destruct Hin as [[k Hk]|H].
      * apply elem_of_cons in Hk as [[= -> ->]|Hk]; [|left; eauto].
        right. cbn [set_price portfolioPrices]. apply get_set_eq.
      * right. cbn [set_price portfolioPrices].
        destruct (decide (symbol i0 = symbol i)) as [E|E].
        -- rewrite (Huniq k0 i0 ltac:(left) E). apply get_set_eq.
        -- by rewrite get_set_ne.
Qed.

(** C7, as the code has it: for a tracked instrument that is the only one
    under its symbol, the row stored by [updateMarkPrices] is the one built
    from the data manager's answer: without market data the price is 0, the
    price type N/A; with market data the mark price and [Mark] when the
    instrument type is [OPT], the last price and [Last] for every other
    type, futures included; a NaN price is stored as 0. *)
Theorem snapshot_row_by_type (rtData : DataManager) (close : bool)
    (st : PortfolioTracker) (k : string) (instrument : Instrument) :
  (k, instrument) ∈ PyDict.items (instrumentDictionary st) ->
  (forall k' i', (k', i') ∈ PyDict.items (instrumentDictionary st) ->
                 symbol i' = symbol instrument -> i' = instrument) ->
  exists row,
    PyDict.get (symbol instrument)
      (portfolioPrices (updateMarkPrices rtData close st)) = Some row
    /\ match getBestMarketData rtData instrument with
       | None =>
           markPrice row = ofZ 0 /\ priceType row = "N/A"%string
           /\ time row = TimeNA /\ Close row = ofZ 0
       | Some md =>
           (instrumentType instrument = "OPT"%string ->
            markPrice row = nan_to_zero (MarketData.markPrice md)
            /\ priceType row = "Mark"%string)
           /\ (instrumentType instrument <> "OPT"%string ->
               markPrice row = nan_to_zero (MarketData.last md)
               /\ priceType row = "Last"%string)
           /\ time row = Strftime (MarketData.timestamp md)
           /\ Close row = nan_to_zero (MarketData.closePrice md)
       end.
Proof.
  intros Hin Huniq.
  exists (priceRow (getBestMarketData rtData instrument) instrument). split.
  - unfold updateMarkPrices. apply fold_prices_get; [exact Huniq | left; eauto].
  - unfold priceRow. destruct (getBestMarketData rtData instrument) as [md|].
    + destruct (decide (instrumentType instrument = "OPT"%string)) as [E|E];
        simpl; repeat split; try done; intros; done.
    + done.
Qed.

Lemma snapshot_row_by_type_witness :
  exists row,
    PyDict.get "ESZ4" (portfolioPrices (updateMarkPrices someData false threeInstruments))
    = Some row
    /\ markPrice row = ofZ 12 /\ priceType row = "Last"%string.
Proof.
  destruct (snapshot_row_by_type someData false threeInstruments "ESZ4" aFuture)
    as (row & Hget & Hrow).
  - vm_compute. right. left.
  - intros k' i' Hin Hsym.
    change (PyDict.items (instrumentDictionary threeInstruments))
      with [(symbol anOption, anOption); (symbol aFuture, aFuture);
            (symbol aStock, aStock)] in Hin.
    rewrite !elem_of_cons, elem_of_nil in Hin.
    destruct Hin as [[= -> ->]|[[= -> ->]|[[= -> ->]|[]]]];
      [discriminate Hsym | reflexivity | discriminate Hsym].
  - exists row. split; [exact Hget|].
    simpl in Hrow. destruct Hrow as (_ & Hlast & _).
    destruct Hlast as [-> ->]; [discriminate|]. split; reflexivity.
Defined.

(** C7 as stated fails for a derivative that is not an option: the row of a
    future with market data carries the last price and [Last], not the mark
    price and [Mark]. *)
Lemma future_row_counterexample :
  instrumentType aFuture = "FUT"%string
  /\ (exists md, getBestMarketData someData aFuture = Some md
                 /\ MarketData.markPrice md = ofZ 10
                 /\ MarketData.last md = ofZ 12)
  /\ PyDict.get "ESZ4"
       (portfolioPrices (updateMarkPrices someData false threeInstruments))
     = Some {| markPrice := ofZ 12; priceType := "Last";
               time := Strftime 1000; Close := ofZ 0 |}.
Proof.
  split; [reflexivity|]. split; [|vm_compute; reflexivity].
  eexists. repeat split.
Qed.

(** ** The [close] flag *)

(** C10: [update] with [close=True] returns the same table and leaves the
    same tracker as with [close=False], and so does [updateMarkPrices]. *)
Theorem update_close_irrelevant (rtData : DataManager) (st : PortfolioTracker) :
  update rtData true st = update rtData false st
  /\ updateMarkPrices rtData true st = updateMarkPrices rtData false st.
Proof. split; reflexivity. Qed.

(** ** The tracked symbols *)

Lemma getUnderlyings_fold (ps : list Position.t) : forall (acc : gset string) u,
  u ∈ fold_left
        (fun (underlyingsSet : gset string) position =>
           if decide (underlyingSymbol (Position.instrument position) = ""%string)
           then underlyingsSet
           else underlyingsSet ∪ {[underlyingSymbol (Position.instrument position)]})
        ps acc
  <-> u ∈ acc
      \/ (u <> ""%string
          /\ exists p, p ∈ ps /\ underlyingSymbol (Position.instrument p) = u).
Proof.
  induction ps as [|p ps IH]; intros acc u; cbn [fold_left].
  - split; [by left|]. intros [H|(_ & p & Hp & _)]; [done|].
    by apply elem_of_nil in Hp.
  - rewrite IH. split.
    + intros [H|(Hne & q & Hq & Hu)].
      * destruct (decide (underlyingSymbol (Position.instrument p) = ""%string)) as [E|E];
          [by left|].
        apply elem_of_union in H as [H|H]; [by left|].
        apply elem_of_singleton in H. subst u.
        right. split; [done|]. exists p. split; [left | done].
      * right. split; [done|]. exists q. split; [by right | done].
    + intros [H|(Hne & q & Hq & Hu)].
      * left. destruct (decide _); set_solver.
      * apply elem_of_cons in Hq as [->|Hq].
        -- left. rewrite Hu. rewrite decide_False by done. set_solver.
        -- right. eauto.
Qed.

(** [getUnderlyings] returns exactly the non-empty underlying symbols. *)
Lemma elem_of_getUnderlyings (ps : list Position.t) (u : string) :
  u ∈ getUnderlyings ps
  <-> u <> ""%string
      /\ exists p, p ∈ ps /\ underlyingSymbol (Position.instrument p) = u.
Proof.
  unfold getUnderlyings. rewrite elem_of_elements, getUnderlyings_fold.
  split; [intros [H|H]; [set_solver | done] | by right].
Qed.

Section TrackedSymbols.

Variables dt du : string.

Lemma createPosition_tracked acc p :
  tracked (createPosition acc p) = {[Position.symbol p]} ∪ tracked acc.
Proof.
  destruct acc as [st rt]. unfold tracked; simpl. by rewrite dom_insert_L.
Qed.

Lemma createUnderlying_tracked acc u :
  tracked (createUnderlying dt du acc u) = {[u]} ∪ tracked acc.
Proof.
  destruct acc as [st rt]. unfold tracked; simpl. by rewrite dom_insert_L.
Qed.

Lemma addNew_tracked acc s :
  tracked (addNew dt du acc s) = {[s]} ∪ tracked acc.
Proof.
  destruct acc as [st rt]. unfold tracked, addNew.
  destruct (tickerDictionary st !! s) as [v|] eqn:E; simpl.
  - assert (s ∈ dom (tickerDictionary st)) by (apply elem_of_dom; eauto).
    set_solver.
  - by rewrite dom_insert_L.
Qed.

(** A loop whose every pass adds one key adds the keys of the list. *)
Lemma fold_tracked {A} (f : PortfolioTracker * DataManager -> A ->
                            PortfolioTracker * DataManager)
    (key : A -> string) :
  (forall acc a, tracked (f acc a) = {[key a]} ∪ tracked acc) ->
  forall l acc,
    tracked (fold_left f l acc) = list_to_set (key <$> l) ∪ tracked acc.
Proof.
  intros Hf. induction l as [|a l IH]; intros acc; cbn [fold_left].
  - set_solver.
  - rewrite IH, Hf, fmap_cons. set_solver.
Qed.

Lemma create_tracked ibkr rtData verbose st :
  tracked (create dt du ibkr rtData verbose st).1 =
  match requestClient ibkr with
  | None => tracked (st, rtData)
  | Some rc =>
      if Portfolio.truth (fetchPositions rc)
      then list_to_set (getUnderlyings
                          (PyDict.values (Portfolio.positions (fetchPositions rc))))
           ∪ list_to_set (Position.symbol <$>
                          PyDict.values (Portfolio.positions (fetchPositions rc)))
           ∪ tracked (st, rtData)
      else tracked (st, rtData)
  end.
Proof.
  unfold create. destruct (requestClient ibkr) as [rc|]; [|done].
  destruct (Portfolio.truth (fetchPositions rc)); [|done]. cbn [negb fst].
  rewrite (fold_tracked (createUnderlying dt du) id)
    by apply createUnderlying_tracked.
  rewrite (fold_tracked createPosition Position.symbol)
    by apply createPosition_tracked.
  rewrite list_fmap_id. set_solver.
Qed.

Lemma appendSymbols_typed (l : list Instrument) : forall cur,
  appendSymbols cur (AsInstrument <$> l) = Ok (cur ++ (symbol <$> l)).
Proof.
  induction l as [|i l IH]; intros cur; simpl.
  - by rewrite app_nil_r.
  - rewrite IH. by rewrite <- app_assoc.
Qed.

(** Whatever the arguments and whichever way the call ends, no tracked
    symbol is lost. *)
Lemma refresh_grows ibkr rtData args st :
  tracked (st, rtData)
  ⊆ tracked_after (refreshTickerDictionary dt du ibkr rtData args st).
Proof.
  unfold refreshTickerDictionary.
  destruct (requestClient ibkr) as [rc|] eqn:Erc; [|done].
  destruct (decide (size (tickerDictionary st) = 0%nat)) as [E|E].
  - pose proof (create_tracked ibkr rtData true st) as H.
    destruct (create dt du ibkr rtData true st) as [acc effs].
    cbn [tracked_after]. cbn [fst] in H. rewrite H, Erc.
    destruct (Portfolio.truth (fetchPositions rc)); set_solver.
  - destruct (Portfolio.truth (fetchPositions rc)); [|done]. cbn [negb].
    destruct (appendSymbols _ args) as [cur|e]; [|done].
    cbn [tracked_after].
    rewrite (fold_tracked (addNew dt du) id) by apply addNew_tracked.
    set_solver.
Qed.

End TrackedSymbols.

(** C3, as the code has it.  No call, however it ends, loses a tracked
    symbol.  Without a request client, or with a portfolio object that is
    falsy, the call leaves the tracker and the data manager as they were.  A
    call with a list of [Instrument] objects returns; when the request client
    is there and the portfolio object is truthy, the dictionary then holds
    every non-empty underlying symbol of the positions and, if it was not
    empty before the call, every key of the positions and every symbol of the
    instrument list; if it was empty before the call, [create] ran and it
    holds the symbol of every position. *)
Theorem refresh_tracks_and_grows (dt du : string) (ibkr : InteractiveBrokers)
    (rtData : DataManager) (instrumentList : list Instrument)
    (st : PortfolioTracker) :
  (forall args,
     dom (tickerDictionary st)
     ⊆ tracked_after (refreshTickerDictionary dt du ibkr rtData args st))
  /\ (forall args,
        requestClient ibkr = None ->
        state_of (refreshTickerDictionary dt du ibkr rtData args st) = (st, rtData))
  /\ (forall args rc,
        requestClient ibkr = Some rc ->
        Portfolio.truth (fetchPositions rc) = false ->
        state_of (refreshTickerDictionary dt du ibkr rtData args st) = (st, rtData))
  /\ exists acc effs,
       refreshTickerDictionary dt du ibkr rtData (AsInstrument <$> instrumentList) st
       = Returned acc effs
       /\ forall rc,
            requestClient ibkr = Some rc ->
            Portfolio.truth (fetchPositions rc) = true ->
            let positions := Portfolio.positions (fetchPositions rc) in
            (forall p, p ∈ PyDict.values positions ->
                       underlyingSymbol (Position.instrument p) <> ""%string ->
                       underlyingSymbol (Position.instrument p) ∈ tracked acc)
            /\ (size (tickerDictionary st) <> 0%nat ->
                (forall k, k ∈ PyDict.keys positions -> k ∈ tracked acc)
                /\ (forall i, i ∈ instrumentList -> symbol i ∈ tracked acc))
            /\ (size (tickerDictionary st) = 0%nat ->
                forall p, p ∈ PyDict.values positions ->
                          Position.symbol p ∈ tracked acc).
Proof.
  split; [intros args; apply (refresh_grows dt du ibkr rtData args st)|].
  split.
  { intros args Hnone. unfold refreshTickerDictionary. by rewrite Hnone. }
  split.
  { intros args rc Hrc Hfalse. unfold refreshTickerDictionary, create.
    rewrite Hrc, Hfalse. by destruct (decide _). }
  unfold refreshTickerDictionary.
  destruct (requestClient ibkr) as [rc|] eqn:Erc; [|by eexists _, _].
  destruct (decide (size (tickerDictionary st) = 0%nat)) as [E|E].
  - pose proof (create_tracked dt du ibkr rtData true st) as H.
    destruct (create dt du ibkr rtData true st) as [acc effs].
    exists acc, effs. split; [done|].
    intros rc' [= <-] Htruth. cbv zeta. cbn [fst] in H.
    rewrite Erc, Htruth in H. rewrite H. split; [|split; [done|]].
    + intros p Hp Hne. apply elem_of_union_l, elem_of_union_l, elem_of_list_to_set.
      apply elem_of_getUnderlyings. eauto.
    + intros _ p Hp. apply elem_of_union_l, elem_of_union_r, elem_of_list_to_set.
      by apply list_elem_of_fmap_2.
  - destruct (Portfolio.truth (fetchPositions rc)) eqn:Htruth; cbn [negb].
    + rewrite appendSymbols_typed. eexists _, _. split; [done|].
      intros rc' [= <-] _. cbv zeta.
      rewrite (fold_tracked (addNew dt du) id) by apply addNew_tracked.
      rewrite list_fmap_id. split; [|split; [intros _; split|done]].
      * intros p Hp Hne. apply elem_of_union_l, elem_of_list_to_set.
        apply elem_of_app. left. apply elem_of_app. right.
        apply elem_of_getUnderlyings. eauto.
      * intros k Hk. apply elem_of_union_l, elem_of_list_to_set.
        apply elem_of_app. left. apply elem_of_app. by left.
      * intros i Hi. apply elem_of_union_l, elem_of_list_to_set.
        apply elem_of_app. right. by apply list_elem_of_fmap_2.
    + eexists _, _. split; [done|]. intros rc' [= <-] Ht. congruence.
Qed.

Lemma refresh_tracks_and_grows_witness :
  state_of (refreshTickerDictionary "STK" "" noBroker someData
              [AsInstrument aStock] seeded) = (seeded, someData)
  /\ exists acc effs,
    refreshTickerDictionary "STK" "" aBroker someData [AsInstrument aStock] seeded
    = Returned acc effs
    /\ "ABC"%string ∈ tracked acc
    /\ "ABC 241220C00100000"%string ∈ tracked acc
    /\ "XYZ"%string ∈ tracked acc
    /\ "OLD"%string ∈ tracked acc.
Proof.
  split.
  { exact (proj1 (proj2 (refresh_tracks_and_grows "STK" "" noBroker someData
                           [aStock] seeded)) [AsInstrument aStock] eq_refl). }
  destruct (refresh_tracks_and_grows "STK" "" aBroker someData [aStock] seeded)
    as (Hgrow & _ & _ & acc & effs & Heq & Hin).
  exists acc, effs. split; [exact Heq|].
  destruct (Hin _ eq_refl eq_refl) as (Hund & Hsteady & _).
  destruct Hsteady as [Hkeys Hman]; [vm_compute; discriminate|].
  repeat split.
  - apply (Hund aPosition); [vm_compute; left | discriminate].
  - apply Hkeys. vm_compute. left.
  - apply (Hman aStock). left.
  - specialize (Hgrow (AsInstrument <$> [aStock])). rewrite Heq in Hgrow.
    apply Hgrow. apply elem_of_dom. by eexists.
Defined.

(** C3 as stated fails.  Without a request client the call returns at its
    guard and the configured symbol is not tracked; and on a tracker that
    follows nothing yet the call delegates to [create], which tracks the
    position and its underlying and not the configured symbol. *)
Lemma manual_symbol_untracked_counterexample :
  (exists effs,
     refreshTickerDictionary "STK" "" noBroker someData [AsInstrument aStock] seeded
     = Returned (seeded, someData) effs
     /\ tickerDictionary seeded !! "XYZ"%string = None)
  /\ (exists acc effs,
        refreshTickerDictionary "STK" "" aBroker someData [AsInstrument aStock] init
        = Returned acc effs
        /\ is_Some (tickerDictionary acc.1 !! "ABC 241220C00100000"%string)
        /\ is_Some (tickerDictionary acc.1 !! "ABC"%string)
        /\ tickerDictionary acc.1 !! "XYZ"%string = None).
Proof.
  split.
  - eexists. split; reflexivity.
  - eexists _, _. split; [reflexivity|].
    repeat split; vm_compute; eauto.
Qed.

(** ** The scheduled callback *)

Lemma count_app p effs1 effs2 :
  count p (effs1 ++ effs2) = (count p effs1 + count p effs2)%nat.
Proof. induction effs1 as [|e effs1 IH]; simpl; [done|]. rewrite IH. lia. Qed.

Lemma notifyCallBackStatus_frame now w :
  portfolioTracker (notifyCallBackStatus now w).1 = portfolioTracker w
  /\ dataManager (notifyCallBackStatus now w).1 = dataManager w
  /\ app (notifyCallBackStatus now w).1 = app w
  /\ count isSheetWrite (notifyCallBackStatus now w).2 = 0%nat.
Proof.
  unfold notifyCallBackStatus.
  by destruct ((hour now =? 9) && (minute now =? 50) && (30 <? callbackCounter w + 1)).
Qed.

(** C6: a call of [trackPortfolio] less than [updateSeconds] after the time
    of the last completed run returns at once: nothing is logged, refreshed
    or written and the world, [lastPortfolioTime] included, is the one it
    was given; this for every spacing of magnitude below 2^32 seconds, where
    the comparison of the integers is the code's comparison of the rounded
    float.  [checkConnection], which calls it with the default of 20 seconds,
    then still schedules its next run five seconds ahead, and leaves the
    tracker and the data manager as they were. *)
Theorem trackPortfolio_noop_within_spacing (dt du : string)
    (broker : InteractiveBrokers) (manualTickers : list string) (w : World) :
  (forall currentTime updateSeconds,
     Z.abs updateSeconds < 2 ^ 32 ->
     currentTime - lastPortfolioTime (portfolioTracker w) < seconds_us updateSeconds ->
     trackPortfolio dt du currentTime broker updateSeconds manualTickers w
     = Returned w [])
  /\ (forall clock,
        t_track clock - lastPortfolioTime (portfolioTracker w) < seconds_us 20 ->
        exists w' b effs,
          checkConnection dt du clock broker manualTickers w = Returned (w', b) effs
          /\ portfolioTracker w' = portfolioTracker w
          /\ dataManager w' = dataManager w
          /\ Schedule (t_next clock + seconds_us 5) manualTickers ∈ effs
          /\ count isSheetWrite effs = 0%nat).
Proof.
  split.
  - intros currentTime updateSeconds _ Hlt. unfold trackPortfolio.
    by rewrite (proj2 (Z.ltb_lt _ _) Hlt).
  - intros clock Hlt. unfold checkConnection.
    destruct (notifyCallBackStatus_frame (t_status clock) w) as (Ht & Hd & Ha & Hc).
    destruct (notifyCallBackStatus (t_status clock) w) as [w1 effs0].
    cbn [fst snd] in Ht, Hd, Ha, Hc.
    unfold trackPortfolio, updateSeconds_default. rewrite Ht.
    rewrite (proj2 (Z.ltb_lt _ _) Hlt). rewrite Ha.
    destruct (app w) as [a|].
    + destruct (checkCallBack a); eexists _, _, _; (split; [reflexivity|]);
        (split; [exact Ht|]); (split; [exact Hd|]); split.
      * set_solver.
      * rewrite !count_app, Hc. reflexivity.
      * set_solver.
      * rewrite !count_app, Hc. reflexivity.
    + eexists _, _, _. split; [reflexivity|].
      split; [exact Ht|]. split; [exact Hd|]. split.
      * set_solver.
      * rewrite !count_app, Hc. reflexivity.
Qed.

Lemma trackPortfolio_noop_within_spacing_witness :
  trackPortfolio "STK" "" (seconds_us 110) aBroker 20 ["XYZ"%string] aWorld
  = Returned aWorld []
  /\ exists w' b effs,
       checkConnection "STK" "" (clockAt (seconds_us 110)) aBroker ["XYZ"%string] aWorld
       = Returned (w', b) effs
       /\ portfolioTracker w' = portfolioTracker aWorld
       /\ dataManager w' = dataManager aWorld
       /\ Schedule (seconds_us 110 + seconds_us 5) ["XYZ"%string] ∈ effs
       /\ count isSheetWrite effs = 0%nat.
Proof.
  destruct (trackPortfolio_noop_within_spacing "STK" "" aBroker ["XYZ"%string] aWorld)
    as [Htrack Hcheck].
  split.
  - apply Htrack; vm_compute; reflexivity.
  - apply (Hcheck (clockAt (seconds_us 110))). vm_compute. reflexivity.
Defined.

(** Outside the spacing the run goes on to refresh the tickers, and the
    strings the scheduler passes as instruments make the attribute lookup
    raise once the tracker follows something. *)
Example trackPortfolio_manual_tickers_raise :
  trackPortfolio "STK" "" (seconds_us 120) aBroker 20 ["XYZ"%string] aWorld
  = Raised (AttributeError "symbol") aWorld
      [LogInfo (Lit ">>refreshing tickers...")].
Proof. reflexivity. Qed.

(** * Further properties *)

(** ** The shortable-share state over any batch *)

Lemma notifyShortableShares_state ts st :
  (notifyShortableShares ts st).1 = state_of (notifyLoop ts st).
Proof. unfold notifyShortableShares. by destruct (notifyLoop ts st). Qed.

(** What one ticker preserves, whether it returns or raises, the loop
    preserves. *)
Lemma notifyLoop_invariant (P : Hyst -> Prop) (Q : Ticker -> Prop) :
  (forall t st, Q t -> P st -> P (state_of (notifyTicker t st))) ->
  forall ts st, Forall Q ts -> P st -> P (state_of (notifyLoop ts st)).
Proof.
  intros Hstep ts. induction ts as [|t ts IH]; intros st HQ HP; [done|].
  inversion HQ as [|? ? Ht Hts]; subst. cbn [notifyLoop].
  specialize (Hstep t st Ht HP).
  destruct (notifyTicker t st) as [st1 e1|x st1 e1]; [|done].
  specialize (IH st1 Hts Hstep).
  by destruct (notifyLoop ts st1).
Qed.

Lemma run_invariant (P : Hyst -> Prop) :
  (forall t st, P st -> P (state_of (notifyTicker t st))) ->
  forall batches st, P st -> P (run batches st).1.
Proof.
  intros Hstep batches. induction batches as [|b bs IH]; intros st HP; [done|].
  cbn [run].
  assert (P (notifyShortableShares b st).1) as H1.
  { rewrite notifyShortableShares_state.
    apply (notifyLoop_invariant P (fun _ => True)); [auto | | done].
    by apply Forall_forall. }
  destruct (notifyShortableShares b st) as [st1 e1]. cbn [fst] in H1.
  specialize (IH st1 H1). by destruct (run bs st1).
Qed.

Lemma notifyTicker_bounded t st :
  counters_bounded st -> counters_bounded (state_of (notifyTicker t st)).
Proof.
  intros Hb. unfold notifyTicker.
  destruct (contract t) as [c|]; [|done].
  destruct (isnan (shortableShares t)) eqn:Hnan.
  - cbn [set_counter nanCounterDict]. rewrite lookup_insert_eq.
    assert (0 <= default 0 (nanCounterDict st !! Ib.symbol c) <= 10) as Hc.
    { destruct (nanCounterDict st !! Ib.symbol c) as [n|] eqn:E; simpl; [|lia].
      by apply (Hb _ _ E). }
    destruct (10 <? _) eqn:E; simpl; intros s n; simpl.
    + destruct (decide (s = Ib.symbol c)) as [->|Hne].
      * rewrite lookup_insert_eq. intros [= <-]. lia.
      * rewrite !lookup_insert_ne by done. apply Hb.
    + destruct (shortableShares t); try discriminate Hnan. simpl.
      intros H. destruct (decide (s = Ib.symbol c)) as [->|Hne].
      * rewrite lookup_insert_eq in H. injection H as <-. lia.
      * rewrite lookup_insert_ne in H by done. by apply (Hb s).
  - destruct (nanCounterDict st !! Ib.symbol c) as [n|] eqn:E; [|done].
    destruct (10 <? n) eqn:E10.
    + pose proof (Hb _ _ E). lia.
    + rewrite (isnan_normalize _ Hnan). simpl. exact Hb.
Qed.

(** X1: if every NaN counter lies between 0 and 10, so it does after any
    sequence of calls of [notifyShortableShares], whatever the tickers and
    whether or not a call ended in its exception handler. *)
Theorem counters_stay_bounded (batches : list (list Ticker)) (st : Hyst) :
  counters_bounded st -> counters_bounded (run batches st).1.
Proof. apply run_invariant. intros t st'. apply notifyTicker_bounded. Qed.

Lemma counters_stay_bounded_witness :
  counters_bounded
    (run [[sample {| Ib.symbol := "ABC"; Ib.localSymbol := "ABC" |} NaN]]
       {| shortableSharesDict := ∅; nanCounterDict := ∅ |}).1.
Proof.
  apply counters_stay_bounded. intros s n H. simpl in H.
  by rewrite lookup_empty in H.
Defined.

Lemma gtb_normalize_sentinel v : gtb (normalize v) SENTINEL = false.
Proof.
  unfold normalize. destruct (gtb v SENTINEL) eqn:E; [reflexivity | exact E].
Qed.

Lemma lookup_set_counter s k st :
  nanCounterDict (set_counter s k st) !! s = Some k.
Proof. unfold set_counter; simpl. apply lookup_insert_eq. Qed.

(** The state one ticker leaves behind has one of four shapes. *)
Lemma notifyTicker_shape t st :
  state_of (notifyTicker t st) = st
  \/ exists c, contract t = Some c
     /\ ((exists k, state_of (notifyTicker t st) = set_counter (Ib.symbol c) k st)
         \/ exists x, isnan x = false /\ gtb x SENTINEL = false
            /\ (state_of (notifyTicker t st) = set_shares (Ib.symbol c) x st
                \/ state_of (notifyTicker t st)
                   = set_shares (Ib.symbol c) x (set_counter (Ib.symbol c) 0 st))).
Proof.
  unfold notifyTicker. destruct (contract t) as [c|]; [|by left].
  destruct (isnan (shortableShares t)) eqn:Hnan.
  - right. exists c. split; [done|].
    rewrite lookup_set_counter.
    destruct (10 <? _) eqn:E.
    + right. exists (ofZ 0). split; [done|]. split; [done|]. right.
      cbn [state_of isnan ofZ negb]. by rewrite set_counter_twice.
    + destruct (shortableShares t); try discriminate Hnan.
      cbn [state_of isnan negb].
      left. by eexists.
  - destruct (nanCounterDict st !! Ib.symbol c) as [n|] eqn:E; [|by left].
    right. exists c. split; [done|]. right. destruct (10 <? n).
    + exists (ofZ 0). split; [done|]. split; [done|]. by right.
    + exists (normalize (shortableShares t)).
      split; [by apply isnan_normalize|].
      split; [apply gtb_normalize_sentinel|].
      left. by rewrite (isnan_normalize _ Hnan).
Qed.

Lemma notifyTicker_clean t st :
  decided_clean st -> decided_clean (state_of (notifyTicker t st)).
Proof.
  intros Hc.
  destruct (notifyTicker_shape t st) as [->|(c & _ & [[k ->]|(x & Hx & Hs & [->| ->])])];
    [done | done | |]; intros s v; simpl;
    (destruct (decide (s = Ib.symbol c)) as [->|Hne];
     [rewrite lookup_insert_eq; by intros [= <-]
     |rewrite lookup_insert_ne by done; apply Hc]).
Qed.

(** X2: if every decided value is a number at most the sentinel
    2,147,483,000 (as in the empty dictionary and after
    [initshortableSharesDict]), so it is after any sequence of calls: NaN is
    never stored and neither is a value above the sentinel. *)
Theorem decided_values_stay_clean (batches : list (list Ticker)) (st : Hyst) :
  decided_clean st -> decided_clean (run batches st).1.
Proof. apply run_invariant. intros t st'. apply notifyTicker_clean. Qed.

Lemma decided_values_stay_clean_witness :
  decided_clean
    (run [[sample {| Ib.symbol := "ABC"; Ib.localSymbol := "ABC" |} PosInf]]
       {| shortableSharesDict := ∅; nanCounterDict := {["ABC"%string := 0]} |}).1.
Proof.
  apply decided_values_stay_clean. intros s v H. simpl in H.
  by rewrite lookup_empty in H.
Defined.

Lemma notifyTicker_other s t st :
  other_symbol s t ->
  shortableSharesDict (state_of (notifyTicker t st)) !! s = shortableSharesDict st !! s
  /\ nanCounterDict (state_of (notifyTicker t st)) !! s = nanCounterDict st !! s.
Proof.
  unfold other_symbol. intros Ho.
  destruct (notifyTicker_shape t st) as [->|(c & Hc & [[k ->]|(x & _ & _ & [->| ->])])];
    [done | | |]; rewrite Hc in Ho; simpl; by rewrite ?lookup_insert_ne.
Qed.

(** X3: a call touches only the symbols of its tickers: for a symbol that no
    ticker of the batch carries, the decided value and the NaN counter are
    after the call what they were before, exception or not. *)
Theorem other_symbols_untouched (s : string) (ts : list Ticker) (st : Hyst) :
  Forall (other_symbol s) ts ->
  shortableSharesDict (notifyShortableShares ts st).1 !! s
  = shortableSharesDict st !! s
  /\ nanCounterDict (notifyShortableShares ts st).1 !! s = nanCounterDict st !! s.
Proof.
  intros Hts. rewrite notifyShortableShares_state.
  apply (notifyLoop_invariant
           (fun st' => shortableSharesDict st' !! s = shortableSharesDict st !! s
                       /\ nanCounterDict st' !! s = nanCounterDict st !! s)
           (other_symbol s)); [|done|done].
  intros t st' Ht [H1 H2].
  destruct (notifyTicker_other s t st' Ht) as [E1 E2]. by rewrite E1, E2.
Qed.

Lemma other_symbols_untouched_witness :
  let abc := {| Ib.symbol := "ABC"; Ib.localSymbol := "ABC" |} in
  let st := {| shortableSharesDict := {["XYZ"%string := ofZ 7]};
               nanCounterDict := {["XYZ"%string := 3]} |} in
  shortableSharesDict (notifyShortableShares [sample abc NaN; sample abc (ofZ 5)] st).1
    !! "XYZ"%string = Some (ofZ 7)
  /\ nanCounterDict (notifyShortableShares [sample abc NaN; sample abc (ofZ 5)] st).1
       !! "XYZ"%string = Some 3.
Proof.
  intros abc st.
  apply (other_symbols_untouched "XYZ" [sample abc NaN; sample abc (ofZ 5)] st).
  repeat constructor; simpl; discriminate.
Defined.

Lemma notifyLoop_with_contract ts : forall st,
  notifyLoop ts st = notifyLoop (with_contract ts) st.
Proof.
  induction ts as [|t ts IH]; intros st; [done|].
  cbn [with_contract notifyLoop]. unfold has_contract.
  destruct (contract t) as [c|] eqn:Hc.
  - cbn [notifyLoop]. destruct (notifyTicker t st); [|done]. by rewrite IH.
  - unfold notifyTicker. rewrite Hc. rewrite IH.
    by destruct (notifyLoop (with_contract ts) st).
Qed.

(** X4: tickers without a contract are passed over: a call on a batch does
    what it does on the batch with those tickers taken out. *)
Theorem contractless_tickers_skipped (ts : list Ticker) (st : Hyst) :
  notifyShortableShares ts st = notifyShortableShares (with_contract ts) st.
Proof. unfold notifyShortableShares. by rewrite notifyLoop_with_contract. Qed.

(** The NaN sample that finds the counter at ten, whatever was decided
    before: the counter is reset, zero is decided, and the message goes out
    when the value decided before was not zero. *)
Lemma notifyTicker_nan_at_ten c st :
  nanCounterDict st !! Ib.symbol c = Some 10 ->
  notifyTicker (sample c NaN) st =
  Returned (set_shares (Ib.symbol c) (ofZ 0) (set_counter (Ib.symbol c) 0 st))
    (if neb (decided (Ib.symbol c) st) zeroQ
     then notification (ofZ 0) (Ib.symbol c) else []).
Proof.
  intros Hn. unfold notifyTicker, decided, notification; simpl.
  rewrite Hn; simpl. rewrite lookup_insert_eq; simpl.
  unfold set_shares, set_counter, depleted, emerged; simpl.
  rewrite insert_insert_eq.
  destruct (neb (default (ofZ 0) (shortableSharesDict st !! Ib.symbol c)) zeroQ);
    [reflexivity|].
  simpl. by rewrite andb_false_r.
Qed.

Lemma nan_counter_loop c vs : forall n st,
  nanCounterDict st !! Ib.symbol c = Some n ->
  0 <= n <= 10 ->
  exists st' effs,
    notifyLoop (sample c <$> vs) st = Returned st' effs
    /\ nanCounterDict st' !! Ib.symbol c = Some ((n + countNaN vs) mod 11).
Proof.
  induction vs as [|v vs IH]; intros n st Hn Hb.
  - exists st, []. split; [done|]. simpl. rewrite Z.add_0_r.
    by rewrite Z.mod_small by lia.
  - rewrite fmap_cons. cbn [notifyLoop countNaN].
    destruct (isnan v) eqn:Hv.
    + destruct v; try discriminate Hv.
      destruct (decide (n = 10)) as [->|Hne].
      * rewrite (notifyTicker_nan_at_ten c st Hn).
        destruct (IH 0 (set_shares (Ib.symbol c) (ofZ 0) (set_counter (Ib.symbol c) 0 st)))
          as (st' & effs & -> & Hc); [apply lookup_insert_eq | lia |].
        eexists _, _. split; [reflexivity|]. rewrite Hc. f_equal.
        replace (10 + (1 + countNaN vs)) with (0 + countNaN vs + 1 * 11) by lia.
        by rewrite Z_mod_plus_full.
      * assert (default 0 (nanCounterDict st !! Ib.symbol c) = n) as Hd
          by (by rewrite Hn).
        rewrite notifyTicker_nan_below by lia. rewrite Hd.
        destruct (IH (n + 1) (set_counter (Ib.symbol c) (n + 1) st))
          as (st' & effs & -> & Hc); [apply lookup_set_counter | lia |].
        eexists _, _. split; [reflexivity|]. rewrite Hc. f_equal. f_equal. lia.
    + rewrite (notifyTicker_valid c v n st Hv Hn) by lia.
      destruct (IH n (set_shares (Ib.symbol c) (normalize v) st))
        as (st' & effs & -> & Hc); [exact Hn | lia |].
      eexists _, _. split; [reflexivity|]. by rewrite Hc.
Qed.

(** X5: the counter counts the NaN samples of a symbol since its last
    reset, not the consecutive ones: a valid sample leaves it as it is.  For
    a symbol whose counter is [n], between 0 and 10, a batch of samples of any
    kind is processed without exception and leaves the counter at
    [(n + number of NaN samples) mod 11]. *)
Theorem nan_counter_counts_all (c : Ib.Contract) (vs : list pyfloat) (n : Z)
    (st : Hyst) :
  nanCounterDict st !! Ib.symbol c = Some n ->
  0 <= n <= 10 ->
  nanCounterDict (notifyShortableShares (sample c <$> vs) st).1 !! Ib.symbol c
  = Some ((n + countNaN vs) mod 11)
  /\ notifyShortableShares (sample c <$> vs) st
     = (state_of (notifyLoop (sample c <$> vs) st),
        effects_of (notifyLoop (sample c <$> vs) st)).
Proof.
  intros Hn Hb.
  destruct (nan_counter_loop c vs n st Hn Hb) as (st' & effs & E & Hc).
  unfold notifyShortableShares. rewrite E. by split.
Qed.

Lemma nan_counter_counts_all_witness :
  let c := {| Ib.symbol := "ABC"; Ib.localSymbol := "ABC" |} in
  let st := {| shortableSharesDict := ∅; nanCounterDict := {["ABC"%string := 9]} |} in
  nanCounterDict
    (notifyShortableShares (sample c <$> [NaN; ofZ 100; ofZ 200; NaN; NaN]) st).1
    !! "ABC"%string = Some 1.
Proof.
  intros c st.
  exact (proj1 (nan_counter_counts_all c [NaN; ofZ 100; ofZ 200; NaN; NaN] 9 st
                  eq_refl ltac:(lia))).
Defined.

(** X6: when a NaN sample finds the counter of its symbol at 10, the feed is
    taken for lost: the counter goes to 0, the value 0 is decided, and if the
    value decided before was not zero the message with 0 shares is sent and
    logged, once; if it was zero or there was none, nothing is sent. *)
Theorem nan_overflow_decides_zero (c : Ib.Contract) (st : Hyst) :
  nanCounterDict st !! Ib.symbol c = Some 10 ->
  notifyShortableShares [sample c NaN] st
  = (set_shares (Ib.symbol c) (ofZ 0) (set_counter (Ib.symbol c) 0 st),
     if neb (decided (Ib.symbol c) st) zeroQ
     then notification (ofZ 0) (Ib.symbol c) else []).
Proof.
  intros Hn. unfold notifyShortableShares. cbn [notifyLoop].
  rewrite (notifyTicker_nan_at_ten c st Hn). by rewrite app_nil_r.
Qed.

Lemma nan_overflow_decides_zero_witness :
  let c := {| Ib.symbol := "ABC"; Ib.localSymbol := "ABC" |} in
  let st := {| shortableSharesDict := {["ABC"%string := ofZ 500]};
               nanCounterDict := {["ABC"%string := 10]} |} in
  notifyShortableShares [sample c NaN] st
  = (set_shares "ABC" (ofZ 0) (set_counter "ABC" 0 st), notification (ofZ 0) "ABC").
Proof.
  intros c st. exact (nan_overflow_decides_zero c st eq_refl).
Defined.

Lemma notifyShortableShares_valid c v n st :
  isnan v = false ->
  nanCounterDict st !! Ib.symbol c = Some n ->
  n <= 10 ->
  notifyShortableShares [sample c v] st
  = (set_shares (Ib.symbol c) (normalize v) st,
     if depleted (decided (Ib.symbol c) st) (normalize v)
        || emerged (decided (Ib.symbol c) st) (normalize v)
     then notification (normalize v) (Ib.symbol c) else []).
Proof.
  intros Hv Hn Hle. unfold notifyShortableShares. cbn [notifyLoop].
  rewrite (notifyTicker_valid c v n st Hv Hn Hle). by rewrite app_nil_r.
Qed.

(** X7: a valid sample, for a symbol with a counter entry, that is zero
    after normalization sends the message exactly when the value decided
    before was not zero (a negative one such as the initial -1 included); a
    sample that is negative sends nothing.  Either is stored as the decided
    value. *)
Theorem zero_and_negative_samples (c : Ib.Contract) (v : pyfloat) (n : Z)
    (st : Hyst) :
  isnan v = false ->
  nanCounterDict st !! Ib.symbol c = Some n ->
  n <= 10 ->
  (eqb (normalize v) zeroQ = true ->
   notifyShortableShares [sample c v] st
   = (set_shares (Ib.symbol c) (normalize v) st,
      if neb (decided (Ib.symbol c) st) zeroQ
      then notification (normalize v) (Ib.symbol c) else []))
  /\ (eqb (normalize v) zeroQ = false -> gtb (normalize v) zeroQ = false ->
      notifyShortableShares [sample c v] st
      = (set_shares (Ib.symbol c) (normalize v) st, [])).
Proof.
  intros Hv Hn Hle. rewrite (notifyShortableShares_valid c v n st Hv Hn Hle).
  unfold depleted, emerged. split.
  - intros Hz. rewrite Hz, andb_true_r.
    destruct (gtb (normalize v) zeroQ) eqn:G.
    + apply gtb_zero_not_eqb in G. congruence.
    + by rewrite andb_false_r, orb_false_r.
  - intros Hz Hg. by rewrite Hz, Hg, !andb_false_r.
Qed.

Lemma zero_and_negative_samples_witness :
  let c := {| Ib.symbol := "ABC"; Ib.localSymbol := "ABC" |} in
  let st := {| shortableSharesDict := {["ABC"%string := ofZ (-1)]};
               nanCounterDict := {["ABC"%string := 0]} |} in
  notifyShortableShares [sample c (ofZ 0)] st
  = (set_shares "ABC" (ofZ 0) st, notification (ofZ 0) "ABC")
  /\ notifyShortableShares [sample c (ofZ (-5))] st
     = (set_shares "ABC" (ofZ (-5)) st, []).
Proof.
  intros c st. split.
  - exact (proj1 (zero_and_negative_samples c (ofZ 0) 0 st eq_refl eq_refl
                    ltac:(lia)) eq_refl).
  - exact (proj2 (zero_and_negative_samples c (ofZ (-5)) 0 st eq_refl eq_refl
                    ltac:(lia)) eq_refl eq_refl).
Defined.




(** ** The fill handlers *)

(** X9: the two fill handlers raise before anything is sent or logged:
    [IndexError] exactly on a trade without fills, [ValueError] when the
    shares of the trade's last fill are NaN, [OverflowError] when they are
    infinite.  Otherwise they return, and the message they log is built from
    the execution of the trade's last fill: of the fill the event carries,
    [onCommission] reads the timestamp only and [onExecDetails] the
    commission only. *)
Theorem fill_handlers_read_last_fill (now : Z) (trade : Ib.Trade)
    (fill fill' : Ib.Fill) (report : Ib.CommissionReport) :
  (onCommission now trade fill report = Err IndexError <-> Ib.fills trade = [])
  /\ (onExecDetails trade fill = Err IndexError <-> Ib.fills trade = [])
  /\ (forall f, last (Ib.fills trade) = Some f ->
        (shares (Ib.execution f) = NaN ->
         onCommission now trade fill report = Err ValueError
         /\ onExecDetails trade fill = Err ValueError)
        /\ (shares (Ib.execution f) = PosInf \/ shares (Ib.execution f) = NegInf ->
            onCommission now trade fill report = Err OverflowError
            /\ onExecDetails trade fill = Err OverflowError)
        /\ (forall q, shares (Ib.execution f) = Fin q ->
            exists effs effs',
              onCommission now trade fill report = Ok effs
              /\ onExecDetails trade fill = Ok effs'
              /\ last effs
                 = Some (LogInfo (TradeMsg (Ib.execution f)
                                   (Ib.localSymbol (Ib.trade_contract trade))
                                   (Ib.commission report)))
              /\ last effs'
                 = Some (LogInfo (TradeMsg (Ib.execution f)
                                   (Ib.localSymbol (Ib.trade_contract trade))
                                   (Ib.commission (Ib.commissionReport fill))))))
  /\ (Ib.time fill' = Ib.time fill ->
      onCommission now trade fill' report = onCommission now trade fill report)
  /\ (Ib.commission (Ib.commissionReport fill')
      = Ib.commission (Ib.commissionReport fill) ->
      onExecDetails trade fill' = onExecDetails trade fill).
Proof.
  unfold onCommission, onExecDetails, buildTradeMessage.
  destruct (last (Ib.fills trade)) as [f|] eqn:E.
  - assert (Ib.fills trade <> []) as Hne by (intros H; by rewrite H in E).
    split; [|split; [|split; [|split]]].
    + split; [|done]. destruct (shares (Ib.execution f)); cbn [py_int]; try done.
      by destruct (_ <? _).
    + split; [|done]. by destruct (shares (Ib.execution f)).
    + intros f' [= <-]. split; [|split].
      * by intros ->.
      * by intros [-> | ->].
      * intros q ->. cbn [py_int]. destruct (_ <? _); by eexists _, _.
    + by intros ->.
    + by intros ->.
  - apply last_None in E. repeat split; try done.
Qed.

Lemma fill_handlers_read_last_fill_witness :
  let other :=
    {| Ib.execution := {| side := "SLD"; shares := NaN; price := ofZ 2 |};
       Ib.commissionReport := {| Ib.commission := ofZ 9 |};
       Ib.time := seconds_us 290 |} in
  onCommission (seconds_us 300) (trade_of (fill_at 0)) other
    {| Ib.commission := ofZ 1 |}
  = onCommission (seconds_us 300) (trade_of (fill_at 0)) (fill_at (seconds_us 290))
      {| Ib.commission := ofZ 1 |}
  /\ onCommission (seconds_us 300) (trade_of other) (fill_at (seconds_us 290))
       {| Ib.commission := ofZ 1 |}
     = Err ValueError.
Proof.
  intros other. split.
  - exact (proj1 (proj2 (proj2 (proj2 (fill_handlers_read_last_fill (seconds_us 300)
                   (trade_of (fill_at 0)) (fill_at (seconds_us 290)) other
                   {| Ib.commission := ofZ 1 |}))))
             eq_refl).
  - exact (proj1 (proj1 (proj1 (proj2 (proj2 (fill_handlers_read_last_fill
                   (seconds_us 300) (trade_of other) (fill_at (seconds_us 290))
                   other {| Ib.commission := ofZ 1 |}))) other eq_refl) eq_refl)).
Defined.

(** ** The liveness line *)

Lemma with_counter_same w : with_counter (callbackCounter w) w = w.
Proof. by destruct w. Qed.

(** X10: [notifyCallBackStatus] logs its liveness line exactly when the
    clock reads 9:50 and, this invocation included, more than 30 invocations
    are counted; it then restarts the count at 0.  Every other invocation
    logs nothing and adds one to the count.  So as long as the count stays at
    or below 30 the invocations only count, whatever the clock reads. *)
Theorem liveness_line_spacing (w : World) :
  (forall now,
     hour now = 9 -> minute now = 50 -> 30 <= callbackCounter w ->
     notifyCallBackStatus now w
     = (with_counter 0 w, [LogInfo (CallBackRunning (hour now) (minute now))]))
  /\ (forall now,
        (notifyCallBackStatus now w).2 <> [] ->
        callbackCounter (notifyCallBackStatus now w).1 = 0
        /\ hour now = 9 /\ minute now = 50 /\ 30 <= callbackCounter w)
  /\ (forall now,
        (notifyCallBackStatus now w).2 = [] ->
        notifyCallBackStatus now w = (with_counter (callbackCounter w + 1) w, []))
  /\ (forall readings,
        callbackCounter w + Z.of_nat (length readings) <= 30 ->
        callbacks readings w
        = (with_counter (callbackCounter w + Z.of_nat (length readings)) w, [])).
Proof.
  split; [|split; [|split]].
  - intros now Hh Hm Hc. unfold notifyCallBackStatus.
    rewrite (proj2 (Z.eqb_eq _ _) Hh), (proj2 (Z.eqb_eq _ _) Hm).
    by assert ((30 <? callbackCounter w + 1) = true) as -> by lia.
  - intros now. unfold notifyCallBackStatus.
    destruct (hour now =? 9) eqn:Eh; [|done].
    destruct (minute now =? 50) eqn:Em; [|done].
    destruct (30 <? callbackCounter w + 1) eqn:Ec; [|done].
    intros _. cbn [andb fst with_counter callbackCounter].
    apply Z.eqb_eq in Eh, Em. apply Z.ltb_lt in Ec. lia.
  - intros now. unfold notifyCallBackStatus.
    by destruct ((hour now =? 9) && (minute now =? 50) && (30 <? callbackCounter w + 1)).
  - intros readings. revert w.
    induction readings as [|now rest IH]; intros w Hle.
    + simpl. by rewrite Z.add_0_r, with_counter_same.
    + cbn [callbacks]. unfold notifyCallBackStatus.
      cbn [length] in Hle.
      assert ((30 <? callbackCounter w + 1) = false) as -> by lia.
      rewrite andb_false_r.
      rewrite IH; cbn [with_counter callbackCounter]; [|lia].
      unfold with_counter; simpl. do 2 f_equal. lia.
Qed.

Lemma liveness_line_spacing_witness :
  notifyCallBackStatus (seconds_us 35400) (with_counter 30 aWorld)
  = (with_counter 0 aWorld, [LogInfo (CallBackRunning 9 50)])
  /\ callbacks [seconds_us 35400; seconds_us 35405; seconds_us 35410]
       (with_counter 0 aWorld)
     = (with_counter 3 aWorld, []).
Proof.
  split.
  - exact (proj1 (liveness_line_spacing (with_counter 30 aWorld)) (seconds_us 35400)
             eq_refl eq_refl ltac:(cbv; discriminate)).
  - exact (proj2 (proj2 (proj2 (liveness_line_spacing (with_counter 0 aWorld))))
             [seconds_us 35400; seconds_us 35405; seconds_us 35410]
             ltac:(cbv; discriminate)).
Defined.

(** ** More on the tracker's dictionaries *)

Lemma keys_set_prefix {V} k (v : V) d :
  PyDict.keys d `prefix_of` PyDict.keys (PyDict.set k v d).
Proof.
  destruct (PyDict.get k d) as [v0|] eqn:E.
  - by rewrite (keys_set_present k v v0 d E).
  - rewrite (keys_set_absent k v d E). by apply prefix_app_r.
Qed.

Lemma elem_of_keys_set {V} k k' (v : V) d :
  k' ∈ PyDict.keys (PyDict.set k v d) <-> k' = k \/ k' ∈ PyDict.keys d.
Proof.
  unfold PyDict.keys. induction d as [|[k0 v0] d IH]; cbn [PyDict.set].
  - rewrite fmap_cons, fmap_nil. simpl. set_solver.
  - destruct (decide (k = k0)) as [->|Hne]; rewrite !fmap_cons; simpl.
    + set_solver.
    + rewrite !elem_of_cons, IH. tauto.
Qed.

Lemma get_None_keys {V} k (d : PyDict.t V) :
  PyDict.get k d = None <-> k ∉ PyDict.keys d.
Proof.
  unfold PyDict.keys. induction d as [|[k0 v0] d IH]; simpl.
  - split; [intros _; apply not_elem_of_nil | done].
  - destruct (decide (k = k0)) as [->|Hne].
    + split; [done|]. intros H. exfalso. apply H. left.
    + rewrite IH, not_elem_of_cons. tauto.
Qed.

Lemma NoDup_keys_set {V} k (v : V) d :
  NoDup (PyDict.keys d) -> NoDup (PyDict.keys (PyDict.set k v d)).
Proof.
  intros Hd. destruct (PyDict.get k d) as [v0|] eqn:E.
  - by rewrite (keys_set_present k v v0 d E).
  - rewrite (keys_set_absent k v d E). apply NoDup_app. split; [done|].
    split; [|apply NoDup_singleton].
    intros x Hx ->%list_elem_of_singleton. by apply get_None_keys in E.
Qed.

(** X11: [getUnderlyings] returns each non-empty underlying symbol of the
    positions once, and nothing else: the empty string that marks "no
    underlying" is never among them. *)
Theorem getUnderlyings_exact (ps : list Position.t) :
  NoDup (getUnderlyings ps)
  /\ (""%string ∉ getUnderlyings ps)
  /\ forall u, u ∈ getUnderlyings ps
               <-> u <> ""%string
                   /\ exists p, p ∈ ps
                                /\ underlyingSymbol (Position.instrument p) = u.
Proof.
  split; [unfold getUnderlyings; apply NoDup_elements|]. split.
  - intros H. by apply elem_of_getUnderlyings in H as [? _].
  - apply elem_of_getUnderlyings.
Qed.

Lemma addToInstrumentDictionary_get s l : forall st,
  PyDict.get s (instrumentDictionary (addToInstrumentDictionary l st))
  = match last (filter (fun i => symbol i = s) l) with
    | Some i => Some i
    | None => PyDict.get s (instrumentDictionary st)
    end.
Proof.
  unfold addToInstrumentDictionary.
  induction l as [|i l IH]; intros st; cbn [fold_left]; [done|].
  rewrite IH. rewrite filter_cons.
  destruct (decide (symbol i = s)) as [<-|Hne].
  - rewrite last_cons. destruct (last (filter _ l)); [done|].
    cbn [set_instrument instrumentDictionary]. apply get_set_eq.
  - destruct (last (filter _ l)); [done|].
    cbn [set_instrument instrumentDictionary]. by apply get_set_ne.
Qed.

Lemma addToInstrumentDictionary_frame l : forall st,
  PyDict.keys (instrumentDictionary st)
    `prefix_of` PyDict.keys (instrumentDictionary (addToInstrumentDictionary l st))
  /\ tickerDictionary (addToInstrumentDictionary l st) = tickerDictionary st
  /\ portfolioPrices (addToInstrumentDictionary l st) = portfolioPrices st
  /\ lastPortfolioTime (addToInstrumentDictionary l st) = lastPortfolioTime st.
Proof.
  unfold addToInstrumentDictionary.
  induction l as [|i l IH]; intros st; cbn [fold_left]; [done|].
  destruct (IH (set_instrument (symbol i) i st)) as (Hp & -> & -> & ->).
  split; [|done]. etransitivity; [|exact Hp].
  cbn [set_instrument instrumentDictionary]. apply keys_set_prefix.
Qed.

(** X12: after [addToInstrumentDictionary] on any list, a symbol maps to the
    last instrument of the list that carries it, or, if none does, to what it
    mapped to before.  The symbols already present keep their places at the
    front of the iteration order, and the tracker's other fields are not
    touched. *)
Theorem addToInstrumentDictionary_lookup (l : list Instrument)
    (st : PortfolioTracker) (s : string) :
  PyDict.get s (instrumentDictionary (addToInstrumentDictionary l st))
  = match last (filter (fun i => symbol i = s) l) with
    | Some i => Some i
    | None => PyDict.get s (instrumentDictionary st)
    end
  /\ PyDict.keys (instrumentDictionary st)
       `prefix_of` PyDict.keys (instrumentDictionary (addToInstrumentDictionary l st))
  /\ tickerDictionary (addToInstrumentDictionary l st) = tickerDictionary st
  /\ portfolioPrices (addToInstrumentDictionary l st) = portfolioPrices st
  /\ lastPortfolioTime (addToInstrumentDictionary l st) = lastPortfolioTime st.
Proof.
  split; [apply addToInstrumentDictionary_get | apply addToInstrumentDictionary_frame].
Qed.

(** ** Snapshots *)

(** What every pass of the loop of [updateMarkPrices] preserves, the loop
    preserves. *)
Lemma fold_prices_ind (rtData : DataManager) (P : PortfolioTracker -> Prop) :
  (forall st i, P st ->
     P (set_price (symbol i) (priceRow (getBestMarketData rtData i) i) st)) ->
  forall (l : list (string * Instrument)) st,
    P st ->
    P (fold_left
         (fun st '(_, instrument) =>
            set_price (symbol instrument)
              (priceRow (getBestMarketData rtData instrument) instrument) st)
         l st).
Proof.
  intros Hstep l. induction l as [|[k i] l IH]; intros st HP; cbn [fold_left];
    [done|]. apply IH. by apply Hstep.
Qed.

Lemma fold_prices_covers (rtData : DataManager)
    (l : list (string * Instrument)) : forall st k i,
  (k, i) ∈ l ->
  symbol i ∈ PyDict.keys
    (portfolioPrices
       (fold_left
          (fun st '(_, instrument) =>
             set_price (symbol instrument)
               (priceRow (getBestMarketData rtData instrument) instrument) st)
          l st)).
Proof.
  induction l as [|[k0 i0] l IH]; intros st k i Hin; cbn [fold_left].
  - by apply elem_of_nil in Hin.
  - apply elem_of_cons in Hin as [[= -> ->]|Hin]; [|by apply (IH _ k)].
    apply (fold_prices_ind rtData (fun st' => symbol i0 ∈ PyDict.keys (portfolioPrices st'))).
    + intros st' i' H. cbn [set_price portfolioPrices].
      apply elem_of_keys_set. by right.
    + cbn [set_price portfolioPrices]. apply elem_of_keys_set. by left.
Qed.

Lemma priceRow_nanfree md i : nanfree_row (priceRow md i).
Proof.
  unfold priceRow, nanfree_row.
  destruct md as [md|]; [|done].
  destruct (decide (instrumentType i = "OPT"%string)); simpl;
    unfold nan_to_zero; split;
    match goal with |- context [isnan ?x] => by destruct x end.
Qed.

Lemma NanFree_set k r d : nanfree_row r -> NanFree d -> NanFree (PyDict.set k r d).
Proof.
  intros Hr. unfold NanFree. induction d as [|[k0 r0] d IH]; intros Hd; simpl.
  - by constructor.
  - inversion Hd as [|? ? H0 Hd']; subst.
    destruct (decide (k = k0)); constructor; auto.
Qed.

(** X13: a snapshot keeps the table stable.  After [update], the symbols that
    had a row keep their rows in the same order at the top of the table,
    every instrument of the instrument dictionary has a row, the table is the
    header followed by one row of five cells per stored row, and the ticker
    dictionary, the instrument dictionary and the time of the last run are
    untouched. *)
Theorem update_table_stable (rtData : DataManager) (close : bool)
    (st : PortfolioTracker) :
  let table := (update rtData close st).1 in
  let st' := (update rtData close st).2 in
  PyDict.keys (portfolioPrices st) `prefix_of` PyDict.keys (portfolioPrices st')
  /\ (forall k i, (k, i) ∈ PyDict.items (instrumentDictionary st) ->
                  symbol i ∈ PyDict.keys (portfolioPrices st'))
  /\ head table = Some HEADER
  /\ (fun row => head row) <$> tail table
     = (fun k => Some (CStr k)) <$> PyDict.keys (portfolioPrices st')
  /\ Forall (fun row => length row = 5%nat) table
  /\ tickerDictionary st' = tickerDictionary st
  /\ instrumentDictionary st' = instrumentDictionary st
  /\ lastPortfolioTime st' = lastPortfolioTime st.
Proof.
  cbn [update fst snd]. unfold updateMarkPrices. repeat split.
  - apply (fold_prices_ind rtData
             (fun st' => PyDict.keys (portfolioPrices st)
                           `prefix_of` PyDict.keys (portfolioPrices st'))); [|done].
    intros st' i H. etransitivity; [exact H|].
    cbn [set_price portfolioPrices]. apply keys_set_prefix.
  - intros k i Hin. by apply (fold_prices_covers rtData _ st k).
  - unfold convertDictToList, PyDict.keys, PyDict.items. cbn [tail].
    rewrite <- !list_fmap_compose. apply list_fmap_ext. by intros ? [k r].
  - unfold convertDictToList. constructor; [done|].
    apply Forall_fmap, Forall_forall. by intros [k r] _.
  - by apply (fold_prices_ind rtData
                (fun st' => tickerDictionary st' = tickerDictionary st)).
  - by apply (fold_prices_ind rtData
                (fun st' => instrumentDictionary st' = instrumentDictionary st)).
  - by apply (fold_prices_ind rtData
                (fun st' => lastPortfolioTime st' = lastPortfolioTime st)).
Qed.

(** X14: a snapshot puts no NaN on the sheet.  If no stored row holds a NaN
    (as in a new tracker), none does after [update], and no numeric cell of
    the table it returns is NaN, whatever the data manager supplied. *)
Theorem update_table_nanfree (rtData : DataManager) (close : bool)
    (st : PortfolioTracker) :
  NanFree (portfolioPrices st) ->
  NanFree (portfolioPrices (update rtData close st).2)
  /\ Forall (Forall cell_ok) (update rtData close st).1.
Proof.
  intros Hfree.
  assert (NanFree (portfolioPrices (updateMarkPrices rtData close st))) as H.
  { unfold updateMarkPrices.
    apply (fold_prices_ind rtData (fun st' => NanFree (portfolioPrices st')));
      [|done].
    intros st' i Hst'. cbn [set_price portfolioPrices].
    apply NanFree_set; [apply priceRow_nanfree | done]. }
  cbn [update fst snd]. split; [exact H|].
  unfold convertDictToList. constructor; [by repeat constructor|].
  apply Forall_fmap. unfold NanFree in H. unfold PyDict.items.
  eapply Forall_impl; [exact H|]. intros [k r] [Hm Hc]. simpl in *.
  by repeat constructor.
Qed.

Lemma update_table_nanfree_witness :
  Forall (Forall cell_ok) (update someData false threeInstruments).1.
Proof.
  apply (update_table_nanfree someData false threeInstruments). constructor.
Defined.

(** ** Creating and refreshing the tracked set *)

Lemma fold_left_preserves {A B} (f : B -> A -> B) (P : B -> Prop) :
  (forall acc x, P acc -> P (f acc x)) ->
  forall l acc, P acc -> P (fold_left f l acc).
Proof.
  intros Hf l. induction l as [|x l IH]; intros acc HP; cbn [fold_left]; auto.
Qed.

Lemma fold_left_establishes {A B} (f : B -> A -> B) (P : B -> Prop) (a : A) :
  (forall acc, P (f acc a)) ->
  (forall acc x, P acc -> P (f acc x)) ->
  forall l acc, a ∈ l -> P (fold_left f l acc).
Proof.
  intros Ha Hf l. induction l as [|x l IH]; intros acc Hin; cbn [fold_left].
  - by apply elem_of_nil in Hin.
  - apply elem_of_cons in Hin as [->|Hin]; [|by apply IH].
    apply fold_left_preserves; [exact Hf | apply Ha].
Qed.

Section CreateAndRefresh.

Variables dt du : string.

Lemma createPosition_registered l : forall acc,
  registered (fold_left createPosition l acc).2
  = registered acc.2 ++ (Position.instrument <$> l).
Proof.
  induction l as [|p l IH]; intros [st rt]; cbn [fold_left].
  - by rewrite app_nil_r.
  - rewrite IH. simpl. by rewrite <- app_assoc.
Qed.

Lemma createUnderlying_registered l : forall acc,
  (fold_left (createUnderlying dt du) l acc).2 = acc.2.
Proof.
  intros acc. apply (fold_left_preserves (createUnderlying dt du)
                       (fun acc' => acc'.2 = acc.2)); [|done].
  by intros [st rt] u.
Qed.

Lemma createPosition_zero k acc p :
  PyDict.get k (portfolioPrices acc.1) = Some ZERO_ROW ->
  PyDict.get k (portfolioPrices (createPosition acc p).1) = Some ZERO_ROW.
Proof.
  destruct acc as [st rt]. simpl. intros H.
  destruct (decide (Position.symbol p = k)) as [<-|Hne];
    [apply get_set_eq | by rewrite get_set_ne].
Qed.

Lemma createUnderlying_zero k acc u :
  PyDict.get k (portfolioPrices acc.1) = Some ZERO_ROW ->
  PyDict.get k (portfolioPrices (createUnderlying dt du acc u).1) = Some ZERO_ROW.
Proof.
  destruct acc as [st rt]. simpl. intros H.
  destruct (decide (u = k)) as [<-|Hne];
    [apply get_set_eq | by rewrite get_set_ne].
Qed.

Lemma createUnderlying_smart k acc u :
  PyDict.get k (instrumentDictionary acc.1) = Some (smart dt du k) ->
  PyDict.get k (instrumentDictionary (createUnderlying dt du acc u).1)
  = Some (smart dt du k).
Proof.
  destruct acc as [st rt]. simpl. intros H.
  destruct (decide (u = k)) as [<-|Hne];
    [apply get_set_eq | by rewrite get_set_ne].
Qed.

(** X15: what [create] leaves behind.  Without a request client or with a
    falsy portfolio it changes nothing.  Otherwise it registers with the data
    manager the instruments of the positions, in order, and no other; every
    position symbol and every underlying symbol gets the zero row; and every
    underlying symbol is mapped to a new SMART instrument, replacing the
    instrument of a position that has the same symbol. *)
Theorem create_result (ibkr : InteractiveBrokers) (rtData : DataManager)
    (verbose : bool) (st : PortfolioTracker) :
  (requestClient ibkr = None -> (create dt du ibkr rtData verbose st).1 = (st, rtData))
  /\ forall rc, requestClient ibkr = Some rc ->
       (Portfolio.truth (fetchPositions rc) = false ->
        (create dt du ibkr rtData verbose st).1 = (st, rtData))
       /\ (Portfolio.truth (fetchPositions rc) = true ->
           let values := PyDict.values (Portfolio.positions (fetchPositions rc)) in
           let st' := (create dt du ibkr rtData verbose st).1.1 in
           let rtData' := (create dt du ibkr rtData verbose st).1.2 in
           registered rtData' = registered rtData ++ (Position.instrument <$> values)
           /\ (forall u, u ∈ getUnderlyings values ->
                 PyDict.get u (instrumentDictionary st') = Some (smart dt du u)
                 /\ PyDict.get u (portfolioPrices st') = Some ZERO_ROW)
           /\ (forall p, p ∈ values ->
                 PyDict.get (Position.symbol p) (portfolioPrices st') = Some ZERO_ROW)).
Proof.
  unfold create. split; [by intros ->|]. intros rc ->. split; [by intros ->|].
  intros ->. cbn [negb fst snd]. split; [|split].
  - rewrite createUnderlying_registered, createPosition_registered. done.
  - intros u Hu. split.
    + apply (fold_left_establishes (createUnderlying dt du)
               (fun acc => PyDict.get u (instrumentDictionary acc.1)
                           = Some (smart dt du u)) u); [| |done].
      * intros [st0 rt0]. simpl. apply get_set_eq.
      * intros acc x. apply createUnderlying_smart.
    + apply (fold_left_establishes (createUnderlying dt du)
               (fun acc => PyDict.get u (portfolioPrices acc.1) = Some ZERO_ROW) u);
        [| |done].
      * intros [st0 rt0]. simpl. apply get_set_eq.
      * intros acc x. apply createUnderlying_zero.
  - intros p Hp.
    apply (fold_left_preserves (createUnderlying dt du)
             (fun acc => PyDict.get (Position.symbol p) (portfolioPrices acc.1)
                         = Some ZERO_ROW)).
    + intros acc x. apply createUnderlying_zero.
    + apply (fold_left_establishes createPosition
               (fun acc => PyDict.get (Position.symbol p) (portfolioPrices acc.1)
                           = Some ZERO_ROW) p); [| |done].
      * intros [st0 rt0]. simpl. apply get_set_eq.
      * intros acc x. apply createPosition_zero.
Qed.

End CreateAndRefresh.

Lemma create_result_witness :
  exchange <$> PyDict.get "ABC"
    (instrumentDictionary (create "STK" "" bothBroker someData true init).1.1)
  = Some "SMART"%string
  /\ registered (create "STK" "" bothBroker someData true init).1.2
     = [abcStock; anOption].
Proof.
  destruct (proj2 (create_result "STK" "" bothBroker someData true init) _ eq_refl)
    as [_ H].
  destruct (H eq_refl) as (Hreg & Hund & _). split.
  - rewrite (proj1 (Hund "ABC"%string ltac:(vm_compute; left))). reflexivity.
  - exact Hreg.
Defined.

Section SteadyRefresh.

Variables dt du : string.

Lemma addNew_tracked_id acc s :
  s ∈ tracked acc -> addNew dt du acc s = acc.
Proof.
  destruct acc as [st rt]. unfold tracked, addNew. simpl.
  intros [v Hv]%elem_of_dom. by rewrite Hv.
Qed.

Lemma addNew_fold_id l : forall acc,
  (forall s, s ∈ l -> s ∈ tracked acc) -> fold_left (addNew dt du) l acc = acc.
Proof.
  induction l as [|x l IH]; intros acc Hall; cbn [fold_left]; [done|].
  rewrite addNew_tracked_id by (apply Hall; left).
  apply IH. intros s Hs. apply Hall. by right.
Qed.

Lemma addNew_frame acc s :
  instrumentDictionary (addNew dt du acc s).1 = instrumentDictionary acc.1
  /\ lastPortfolioTime (addNew dt du acc s).1 = lastPortfolioTime acc.1.
Proof.
  destruct acc as [st rt]. unfold addNew.
  by destruct (tickerDictionary st !! s).
Qed.

(** Once a symbol is tracked with the zero row and registered, the loop
    leaves it so. *)
Lemma addNew_fresh_row s acc x :
  fresh_row dt du s acc -> fresh_row dt du s (addNew dt du acc x).
Proof.
  intros (Ht & Hp & Hr).
  destruct (decide (x ∈ tracked acc)) as [Hx|Hx].
  - by rewrite addNew_tracked_id.
  - assert (x <> s) as Hne by (intros ->; done).
    destruct acc as [st rt]. unfold addNew, fresh_row, tracked in *. simpl in *.
    apply not_elem_of_dom in Hx. rewrite Hx. simpl.
    split; [|split].
    + apply elem_of_dom. rewrite lookup_insert_ne by done. by apply elem_of_dom.
    + by rewrite get_set_ne.
    + apply elem_of_app. by left.
Qed.

Lemma addNew_fold_new s l : forall acc,
  s ∈ l -> s ∉ tracked acc -> fresh_row dt du s (fold_left (addNew dt du) l acc).
Proof.
  induction l as [|x l IH]; intros acc Hin Hs; cbn [fold_left].
  - by apply elem_of_nil in Hin.
  - destruct (decide (x = s)) as [->|Hne].
    + apply fold_left_preserves; [intros a y; apply addNew_fresh_row|].
      destruct acc as [st rt]. unfold addNew, fresh_row, tracked in *. simpl in *.
      apply not_elem_of_dom in Hs. rewrite Hs. simpl. split; [|split].
      * apply elem_of_dom. rewrite lookup_insert_eq. by eexists.
      * apply get_set_eq.
      * apply elem_of_app. right. by left.
    + apply IH.
      * apply elem_of_cons in Hin as [->|Hin]; done.
      * rewrite addNew_tracked. set_solver.
Qed.

End SteadyRefresh.

Lemma fold_prices_other (rtData : DataManager) (s : string)
    (l : list (string * Instrument)) : forall st,
  (forall k i, (k, i) ∈ l -> symbol i <> s) ->
  PyDict.get s
    (portfolioPrices
       (fold_left
          (fun st '(_, instrument) =>
             set_price (symbol instrument)
               (priceRow (getBestMarketData rtData instrument) instrument) st)
          l st))
  = PyDict.get s (portfolioPrices st).
Proof.
  induction l as [|[k0 i0] l IH]; intros st Hne; cbn [fold_left]; [done|].
  rewrite IH by (intros k i Hin; apply (Hne k i); by right).
  cbn [set_price portfolioPrices]. apply get_set_ne. apply (Hne k0 i0). left.
Qed.

Lemma refresh_steady (dt du : string) (ibkr : InteractiveBrokers)
    (rtData : DataManager) (l : list Instrument) (st : PortfolioTracker)
    (rc : RequestClient) :
  requestClient ibkr = Some rc ->
  size (tickerDictionary st) <> 0%nat ->
  Portfolio.truth (fetchPositions rc) = true ->
  refreshTickerDictionary dt du ibkr rtData (AsInstrument <$> l) st
  = Returned
      (fold_left (addNew dt du)
         ((PyDict.keys (Portfolio.positions (fetchPositions rc))
           ++ getUnderlyings (PyDict.values (Portfolio.positions (fetchPositions rc))))
          ++ (symbol <$> l))
         (st, rtData)) [].
Proof.
  intros Hrc Hsize Htruth. unfold refreshTickerDictionary.
  rewrite Hrc, Htruth. rewrite decide_False by done. cbn [negb].
  by rewrite appendSymbols_typed.
Qed.

Lemma tracked_nonempty_size acc :
  tracked acc <> ∅ <-> size (tickerDictionary acc.1) <> 0%nat.
Proof.
  unfold tracked. rewrite map_size_non_empty_iff.
  split; intros H E; apply H; by apply dom_empty_iff_L.
Qed.

(** X16: in the steady state (request client there, something tracked, a
    truthy portfolio) a refresh with a list of instruments returns without a
    log line, and a second refresh with the same portfolio and list changes
    nothing more.  Neither touches the instrument dictionary or the time of
    the last run. *)
Theorem refresh_steady_idempotent (dt du : string) (ibkr : InteractiveBrokers)
    (rtData : DataManager) (l : list Instrument) (st : PortfolioTracker)
    (rc : RequestClient) :
  requestClient ibkr = Some rc ->
  size (tickerDictionary st) <> 0%nat ->
  Portfolio.truth (fetchPositions rc) = true ->
  exists acc,
    refreshTickerDictionary dt du ibkr rtData (AsInstrument <$> l) st
    = Returned acc []
    /\ refreshTickerDictionary dt du ibkr acc.2 (AsInstrument <$> l) acc.1
       = Returned acc []
    /\ instrumentDictionary acc.1 = instrumentDictionary st
    /\ lastPortfolioTime acc.1 = lastPortfolioTime st.
Proof.
  intros Hrc Hsize Htruth.
  rewrite (refresh_steady dt du ibkr rtData l st rc Hrc Hsize Htruth).
  eexists. split; [reflexivity|].
  set (cur := (_ ++ _) ++ _).
  set (acc := fold_left (addNew dt du) cur (st, rtData)).
  assert (tracked acc = list_to_set cur ∪ tracked (st, rtData)) as Htr.
  { unfold acc. rewrite (fold_tracked (addNew dt du) id)
      by apply addNew_tracked. by rewrite list_fmap_id. }
  split; [|split].
  - rewrite (refresh_steady dt du ibkr acc.2 l acc.1 rc Hrc); [| |done].
    + fold cur. destruct acc as [st1 rt1] eqn:Eacc. cbn [fst snd]. f_equal.
      apply addNew_fold_id. intros s Hs. rewrite Htr. set_solver.
    + apply tracked_nonempty_size. rewrite Htr.
      apply (tracked_nonempty_size (st, rtData)) in Hsize. set_solver.
  - unfold acc.
    apply (fold_left_preserves (addNew dt du)
             (fun a => instrumentDictionary a.1 = instrumentDictionary st)); [|done].
    intros a x <-. apply addNew_frame.
  - unfold acc.
    apply (fold_left_preserves (addNew dt du)
             (fun a => lastPortfolioTime a.1 = lastPortfolioTime st)); [|done].
    intros a x <-. apply addNew_frame.
Qed.

Lemma refresh_steady_idempotent_witness :
  exists acc,
    refreshTickerDictionary "STK" "" aBroker someData (AsInstrument <$> [aStock]) seeded
    = Returned acc []
    /\ refreshTickerDictionary "STK" "" aBroker acc.2 (AsInstrument <$> [aStock]) acc.1
       = Returned acc []
    /\ instrumentDictionary acc.1 = instrumentDictionary seeded
    /\ lastPortfolioTime acc.1 = lastPortfolioTime seeded.
Proof.
  apply (refresh_steady_idempotent "STK" "" aBroker someData [aStock] seeded
           {| fetchPositions := aPortfolio |}); [reflexivity | | reflexivity].
  vm_compute. discriminate.
Defined.

(** X17: a symbol taken up by a steady-state refresh (it is among the
    position keys, the underlyings or the listed instruments and was not
    tracked) is registered with the data manager as a SMART instrument and
    gets the zero row, but no entry in the instrument dictionary.  So unless
    an instrument with that symbol is in the instrument dictionary, the next
    [update] leaves its row at price 0 of type [Mark], whatever market data
    there is. *)
Theorem new_symbol_row_stays_zero (dt du : string) (ibkr : InteractiveBrokers)
    (rtData rtData' : DataManager) (l : list Instrument) (st : PortfolioTracker)
    (rc : RequestClient) (s : string) (close : bool) :
  requestClient ibkr = Some rc ->
  size (tickerDictionary st) <> 0%nat ->
  Portfolio.truth (fetchPositions rc) = true ->
  tickerDictionary st !! s = None ->
  s ∈ (PyDict.keys (Portfolio.positions (fetchPositions rc))
       ++ getUnderlyings (PyDict.values (Portfolio.positions (fetchPositions rc))))
      ++ (symbol <$> l) ->
  (forall k i, (k, i) ∈ PyDict.items (instrumentDictionary st) -> symbol i <> s) ->
  exists acc,
    refreshTickerDictionary dt du ibkr rtData (AsInstrument <$> l) st
    = Returned acc []
    /\ fresh_row dt du s acc
    /\ instrumentDictionary acc.1 = instrumentDictionary st
    /\ PyDict.get s (portfolioPrices (update rtData' close acc.1).2) = Some ZERO_ROW.
Proof.
  intros Hrc Hsize Htruth Hnew Hin Hno.
  rewrite (refresh_steady dt du ibkr rtData l st rc Hrc Hsize Htruth).
  eexists. split; [reflexivity|].
  set (cur := (_ ++ _) ++ _) in *.
  assert (fresh_row dt du s (fold_left (addNew dt du) cur (st, rtData))) as Hfresh.
  { apply addNew_fold_new; [done|]. unfold tracked. simpl.
    by apply not_elem_of_dom. }
  assert (instrumentDictionary (fold_left (addNew dt du) cur (st, rtData)).1
          = instrumentDictionary st) as Hinst.
  { apply (fold_left_preserves (addNew dt du)
             (fun a => instrumentDictionary a.1 = instrumentDictionary st)); [|done].
    intros a x <-. apply addNew_frame. }
  split; [exact Hfresh|]. split; [exact Hinst|].
  cbn [update snd]. unfold updateMarkPrices.
  rewrite fold_prices_other; [apply Hfresh|].
  rewrite Hinst. exact Hno.
Qed.

Lemma new_symbol_row_stays_zero_witness :
  exists acc,
    refreshTickerDictionary "STK" "" aBroker someData (AsInstrument <$> []) seeded
    = Returned acc []
    /\ PyDict.get "ABC" (portfolioPrices (update someData false acc.1).2)
       = Some ZERO_ROW.
Proof.
  destruct (new_symbol_row_stays_zero "STK" "" aBroker someData someData [] seeded
              {| fetchPositions := aPortfolio |} "ABC" false)
    as (acc & Heq & _ & _ & Hrow);
    [ reflexivity | vm_compute; discriminate | reflexivity | reflexivity
    | vm_compute; right; left | intros k i Hin; by apply elem_of_nil in Hin | ].
  exists acc. by split.
Defined.

(** ** The instruments to track *)

Lemma mem_get {V} k (d : PyDict.t V) :
  PyDict.mem k d = false <-> PyDict.get k d = None.
Proof. unfold PyDict.mem. destruct (PyDict.get k d); split; done. Qed.

Lemma get_Some_elem_of {V} k (v : V) d : PyDict.get k d = Some v -> (k, v) ∈ d.
Proof.
  induction d as [|[k0 v0] d IH]; simpl; [done|].
  destruct (decide (k = k0)) as [->|Hne].
  - intros [= ->]. left.
  - intros H. right. by apply IH.
Qed.

Lemma keyed_set k i d : k = symbol i -> keyed d -> keyed (PyDict.set k i d).
Proof.
  intros Hk. unfold keyed. induction d as [|[k0 v0] d IH]; intros Hd; simpl.
  - by repeat constructor.
  - inversion Hd as [|? ? H0 Hd']; subst.
    destruct (decide (symbol i = k0)); constructor; auto.
Qed.

Lemma keyed_symbols d : keyed d -> symbol <$> PyDict.values d = PyDict.keys d.
Proof.
  unfold keyed, PyDict.values, PyDict.keys.
  induction 1 as [|[k i] d Hk _ IH]; [done|].
  rewrite !fmap_cons. simpl in *. by rewrite IH, Hk.
Qed.

Section AddIfAbsent.

Variables dt du : string.

Lemma addIfAbsent_keys d x k :
  k ∈ PyDict.keys (addIfAbsent dt du d x) <-> k = x \/ k ∈ PyDict.keys d.
Proof.
  unfold addIfAbsent. destruct (PyDict.mem x d) eqn:E.
  - split; [by right|]. intros [->|H]; [|done].
    destruct (decide (x ∈ PyDict.keys d)) as [|Hn]; [done|].
    apply get_None_keys, mem_get in Hn. congruence.
  - apply elem_of_keys_set.
Qed.

Lemma addIfAbsent_NoDup d x :
  NoDup (PyDict.keys d) -> NoDup (PyDict.keys (addIfAbsent dt du d x)).
Proof.
  unfold addIfAbsent. destruct (PyDict.mem x d); [done|]. apply NoDup_keys_set.
Qed.

Lemma addIfAbsent_keyed d x : keyed d -> keyed (addIfAbsent dt du d x).
Proof.
  unfold addIfAbsent. destruct (PyDict.mem x d); [done|]. by apply keyed_set.
Qed.

(** An entry that is there stays as it is. *)
Lemma addIfAbsent_keeps d x k i :
  PyDict.get k d = Some i -> PyDict.get k (addIfAbsent dt du d x) = Some i.
Proof.
  intros H. unfold addIfAbsent. destruct (PyDict.mem x d) eqn:E; [done|].
  apply mem_get in E. rewrite get_set_ne; [done|]. intros ->. congruence.
Qed.

(** A symbol without entry gets the SMART instrument, and keeps it. *)
Lemma addIfAbsent_smart d x s :
  PyDict.get s d = None \/ PyDict.get s d = Some (smart dt du s) ->
  PyDict.get s (addIfAbsent dt du d x) = None
  \/ PyDict.get s (addIfAbsent dt du d x) = Some (smart dt du s).
Proof.
  intros H. unfold addIfAbsent. destruct (PyDict.mem x d) eqn:E; [done|].
  destruct (decide (x = s)) as [->|Hne].
  - right. apply get_set_eq.
  - by rewrite get_set_ne.
Qed.

End AddIfAbsent.

Lemma fold_keys {A} (f : PyDict.t Instrument -> A -> PyDict.t Instrument)
    (key : A -> string) :
  (forall d a k, k ∈ PyDict.keys (f d a) <-> k = key a \/ k ∈ PyDict.keys d) ->
  forall l d k,
    k ∈ PyDict.keys (fold_left f l d) <-> k ∈ (key <$> l) \/ k ∈ PyDict.keys d.
Proof.
  intros Hf l. induction l as [|a l IH]; intros d k; cbn [fold_left].
  - rewrite fmap_nil. set_solver.
  - rewrite IH, Hf, fmap_cons, elem_of_cons. tauto.
Qed.

Lemma positions_dict_get s (ps : list Position.t) : forall d,
  PyDict.get s
    (fold_left
       (fun d position =>
          PyDict.set (symbol (Position.instrument position))
            (Position.instrument position) d) ps d)
  = match last (filter (fun p => symbol (Position.instrument p) = s) ps) with
    | Some p => Some (Position.instrument p)
    | None => PyDict.get s d
    end.
Proof.
  induction ps as [|p ps IH]; intros d; cbn [fold_left]; [done|].
  rewrite IH, filter_cons.
  destruct (decide (symbol (Position.instrument p) = s)) as [<-|Hne].
  - rewrite last_cons. destruct (last (filter _ ps)); [done|]. apply get_set_eq.
  - destruct (last (filter _ ps)); [done|]. by apply get_set_ne.
Qed.

Lemma instrumentDictOf_wf dt du portfolio manualTickers :
  keyed (instrumentDictOf dt du portfolio manualTickers)
  /\ NoDup (PyDict.keys (instrumentDictOf dt du portfolio manualTickers)).
Proof.
  unfold instrumentDictOf. split.
  - apply fold_left_preserves; [intros d x; apply addIfAbsent_keyed|].
    apply fold_left_preserves; [intros d x; apply addIfAbsent_keyed|].
    apply fold_left_preserves; [|constructor].
    intros d p Hd. by apply keyed_set.
  - apply (fold_left_preserves _ (fun d => NoDup (PyDict.keys d)));
      [intros d x; apply addIfAbsent_NoDup|].
    apply (fold_left_preserves _ (fun d => NoDup (PyDict.keys d)));
      [intros d x; apply addIfAbsent_NoDup|].
    apply (fold_left_preserves _ (fun d => NoDup (PyDict.keys d)));
      [|constructor].
    intros d p Hd. by apply NoDup_keys_set.
Qed.

Lemma instrumentDictOf_keys dt du portfolio manualTickers s :
  s ∈ PyDict.keys (instrumentDictOf dt du portfolio manualTickers)
  <-> s ∈ manualTickers
      \/ s ∈ getUnderlyings (PyDict.values (Portfolio.positions portfolio))
      \/ exists p, p ∈ PyDict.values (Portfolio.positions portfolio)
                   /\ symbol (Position.instrument p) = s.
Proof.
  unfold instrumentDictOf.
  rewrite (fold_keys (addIfAbsent dt du) id) by (intros; apply addIfAbsent_keys).
  rewrite (fold_keys (addIfAbsent dt du) id) by (intros; apply addIfAbsent_keys).
  rewrite (fold_keys _ (fun p => symbol (Position.instrument p)))
    by (intros; apply elem_of_keys_set).
  rewrite !list_fmap_id, list_elem_of_fmap.
  unfold PyDict.keys at 1. rewrite fmap_nil, elem_of_nil.
  split.
  - intros [?|[?|[(p & -> & Hp)|[]]]]; eauto.
  - intros [?|[?|(p & Hp & <-)]]; eauto 6.
Qed.

Lemma instrumentsToTrack_NoDup dt du broker manualTickers :
  NoDup (symbol <$> instrumentsToTrack dt du broker manualTickers).
Proof.
  unfold instrumentsToTrack.
  destruct (requestClient broker) as [rc|]; [|constructor].
  destruct (instrumentDictOf_wf dt du (fetchPositions rc) manualTickers) as [Hk Hn].
  by rewrite (keyed_symbols _ Hk).
Qed.

(** X18: the list [instrumentsToTrack] returns.  It is empty without a
    request client.  Otherwise its instruments have pairwise different
    symbols; these are exactly the symbols of the positions' instruments, the
    underlyings and the manual tickers; a symbol that a position carries
    comes with the instrument of the last such position, never with a
    synthetic one; and any other symbol comes with a new SMART instrument. *)
Theorem instrumentsToTrack_result (dt du : string) (broker : InteractiveBrokers)
    (manualTickers : list string) :
  (requestClient broker = None -> instrumentsToTrack dt du broker manualTickers = [])
  /\ NoDup (symbol <$> instrumentsToTrack dt du broker manualTickers)
  /\ forall rc, requestClient broker = Some rc ->
       let ps := PyDict.values (Portfolio.positions (fetchPositions rc)) in
       (forall s, s ∈ symbol <$> instrumentsToTrack dt du broker manualTickers
                  <-> s ∈ manualTickers \/ s ∈ getUnderlyings ps
                      \/ exists p, p ∈ ps /\ symbol (Position.instrument p) = s)
       /\ (forall s p,
             last (filter (fun p => symbol (Position.instrument p) = s) ps) = Some p ->
             Position.instrument p ∈ instrumentsToTrack dt du broker manualTickers)
       /\ (forall s,
             (forall p, p ∈ ps -> symbol (Position.instrument p) <> s) ->
             s ∈ manualTickers \/ s ∈ getUnderlyings ps ->
             smart dt du s ∈ instrumentsToTrack dt du broker manualTickers).
Proof.
  split; [unfold instrumentsToTrack; by intros ->|].
  split; [apply instrumentsToTrack_NoDup|].
  unfold instrumentsToTrack.
  - intros rc ->. cbv zeta.
    destruct (instrumentDictOf_wf dt du (fetchPositions rc) manualTickers) as [Hk Hn].
    split; [|split].
    + intros s. rewrite (keyed_symbols _ Hk). apply instrumentDictOf_keys.
    + intros s p Hlast.
      assert (PyDict.get s (instrumentDictOf dt du (fetchPositions rc) manualTickers)
              = Some (Position.instrument p)) as Hget.
      { unfold instrumentDictOf.
        apply (fold_left_preserves (addIfAbsent dt du)
                 (fun d => PyDict.get s d = Some (Position.instrument p)));
          [intros d x; apply addIfAbsent_keeps|].
        apply (fold_left_preserves (addIfAbsent dt du)
                 (fun d => PyDict.get s d = Some (Position.instrument p)));
          [intros d x; apply addIfAbsent_keeps|].
        by rewrite positions_dict_get, Hlast. }
      apply get_Some_elem_of in Hget. unfold PyDict.values.
      apply list_elem_of_fmap. by exists (s, Position.instrument p).
    + intros s Hno Hin.
      assert (PyDict.get s (instrumentDictOf dt du (fetchPositions rc) manualTickers)
              = None
              \/ PyDict.get s (instrumentDictOf dt du (fetchPositions rc) manualTickers)
                 = Some (smart dt du s)) as Hget.
      { unfold instrumentDictOf.
        apply (fold_left_preserves (addIfAbsent dt du)
                 (fun d => PyDict.get s d = None
                           \/ PyDict.get s d = Some (smart dt du s)));
          [intros d x; apply addIfAbsent_smart|].
        apply (fold_left_preserves (addIfAbsent dt du)
                 (fun d => PyDict.get s d = None
                           \/ PyDict.get s d = Some (smart dt du s)));
          [intros d x; apply addIfAbsent_smart|].
        left. rewrite positions_dict_get.
        destruct (last (filter _ _)) as [p|] eqn:E; [|done].
        apply last_Some_elem_of, list_elem_of_filter in E as [E Hp].
        by destruct (Hno p Hp). }
      destruct Hget as [Hnone|Hsome].
      * apply get_None_keys in Hnone. exfalso. apply Hnone.
        apply instrumentDictOf_keys. tauto.
      * apply get_Some_elem_of in Hsome. unfold PyDict.values.
        apply list_elem_of_fmap. by exists (s, smart dt du s).
Qed.

Lemma instrumentsToTrack_result_witness :
  instrumentsToTrack "STK" "" bothBroker ["XYZ"; "ABC"]%string
  = [abcStock; anOption; smart "STK" "" "XYZ"]
  /\ abcStock ∈ instrumentsToTrack "STK" "" bothBroker ["XYZ"; "ABC"]%string.
Proof.
  split; [reflexivity|].
  destruct (proj2 (proj2 (instrumentsToTrack_result "STK" "" bothBroker
                            ["XYZ"; "ABC"]%string)) _ eq_refl) as (_ & Hpos & _).
  apply (Hpos "ABC"%string
           {| Position.symbol := "ABC"; Position.instrument := abcStock |}).
  reflexivity.
Defined.





(** ** The scheduled callback, beyond the spacing *)

Lemma create_effects dt du ibkr rtData verbose st :
  count isSheetWrite (create dt du ibkr rtData verbose st).2 = 0%nat
  /\ count isSchedule (create dt du ibkr rtData verbose st).2 = 0%nat.
Proof.
  unfold create. destruct (requestClient ibkr) as [rc|]; [|done].
  destruct (Portfolio.truth (fetchPositions rc)); [|done].
  by destruct verbose.
Qed.

(** The refresh only logs. *)
Lemma refresh_effects dt du ibkr rtData args st :
  count isSheetWrite (effects_of (refreshTickerDictionary dt du ibkr rtData args st))
  = 0%nat
  /\ count isSchedule (effects_of (refreshTickerDictionary dt du ibkr rtData args st))
     = 0%nat.
Proof.
  unfold refreshTickerDictionary. destruct (requestClient ibkr) as [rc|] eqn:Erc;
    [|done].
  destruct (decide (size (tickerDictionary st) = 0%nat)).
  - pose proof (create_effects dt du ibkr rtData true st) as H.
    by destruct (create dt du ibkr rtData true st).
  - destruct (Portfolio.truth (fetchPositions rc)); [|done]. cbn [negb].
    by destruct (appendSymbols _ args).
Qed.

(** With an empty list the refresh cannot raise. *)
Lemma refresh_nil_returned dt du ibkr rtData st :
  exists acc effs,
    refreshTickerDictionary dt du ibkr rtData [] st = Returned acc effs.
Proof.
  unfold refreshTickerDictionary. destruct (requestClient ibkr) as [rc|];
    [|by eexists _, _].
  destruct (decide (size (tickerDictionary st) = 0%nat)).
  - destruct (create dt du ibkr rtData true st). by eexists _, _.
  - destruct (Portfolio.truth (fetchPositions rc)); by eexists _, _.
Qed.

Lemma notifyCallBackStatus_no_schedule now w :
  count isSchedule (notifyCallBackStatus now w).2 = 0%nat.
Proof.
  unfold notifyCallBackStatus.
  by destruct ((hour now =? 9) && (minute now =? 50) && (30 <? callbackCounter w + 1)).
Qed.

Lemma with_tracked_same w : with_tracked (portfolioTracker w, dataManager w) w = w.
Proof. by destruct w. Qed.

(** X20: without manual tickers [trackPortfolio] cannot raise, for a
    spacing of magnitude below 2^32 seconds (where the comparison of the
    integers is the code's).  A run that is not held back by the spacing
    ends with exactly one write to the sheet and with the time of the last run
    set to the clock reading it took, so that every further call less than
    [updateSeconds] later does nothing. *)
Theorem trackPortfolio_completes_without_manual (dt du : string) (currentTime : Z)
    (broker : InteractiveBrokers) (updateSeconds : Z) (w : World) :
  Z.abs updateSeconds < 2 ^ 32 ->
  exists w' effs,
    trackPortfolio dt du currentTime broker updateSeconds [] w = Returned w' effs
    /\ (seconds_us updateSeconds
        <= currentTime - lastPortfolioTime (portfolioTracker w) ->
        lastPortfolioTime (portfolioTracker w') = currentTime
        /\ count isSheetWrite effs = 1%nat
        /\ forall later,
             later - currentTime < seconds_us updateSeconds ->
             trackPortfolio dt du later broker updateSeconds [] w' = Returned w' []).
Proof.
  intros _. unfold trackPortfolio at 1.
  destruct (_ <? _) eqn:E.
  - exists w, []. split; [done|]. intros Hge. apply Z.ltb_lt in E. lia.
  - cbn [map].
    pose proof (refresh_effects dt du broker (dataManager w) [] (portfolioTracker w))
      as [Hsheet _].
    destruct (refresh_nil_returned dt du broker (dataManager w) (portfolioTracker w))
      as ([st1 rt1] & effs1 & Heq).
    rewrite Heq in Hsheet |- *. cbn [effects_of] in Hsheet.
    cbn [update]. eexists _, _. split; [reflexivity|].
    intros _. split; [done|]. split.
    + rewrite !count_app, Hsheet. reflexivity.
    + intros later Hlater. unfold trackPortfolio.
      cbn [with_tracked portfolioTracker fst set_lastPortfolioTime lastPortfolioTime].
      by rewrite (proj2 (Z.ltb_lt _ _) Hlater).
Qed.

Lemma trackPortfolio_completes_without_manual_witness :
  exists w' effs,
    trackPortfolio "STK" "" (seconds_us 130) aBroker 20 [] aWorld = Returned w' effs
    /\ lastPortfolioTime (portfolioTracker w') = seconds_us 130
    /\ count isSheetWrite effs = 1%nat
    /\ trackPortfolio "STK" "" (seconds_us 135) aBroker 20 [] w' = Returned w' [].
Proof.
  destruct (trackPortfolio_completes_without_manual "STK" "" (seconds_us 130)
              aBroker 20 aWorld ltac:(cbv; reflexivity))
    as (w' & effs & Heq & H).
  assert (seconds_us 20
          <= seconds_us 130 - lastPortfolioTime (portfolioTracker aWorld)) as Hge
    by (cbv; discriminate).
  destruct (H Hge) as (Hlast & Hsheet & Hnext).
  exists w', effs.
  split; [exact Heq|]. split; [exact Hlast|]. split; [exact Hsheet|].
  apply Hnext. cbv. reflexivity.
Defined.

Lemma appendSymbols_str cur s rest :
  appendSymbols cur (AsStr <$> (s :: rest)) = Err (AttributeError "symbol").
Proof. reflexivity. Qed.

(** X21: with manual tickers the scheduled run breaks as soon as something
    is tracked.  In the steady state (request client there, a non-empty
    ticker dictionary, a truthy portfolio) and outside the spacing,
    [trackPortfolio] with a non-empty list of manual tickers raises
    [AttributeError] at the lookup of [symbol] on a string: the world is left
    as it was, nothing is written to the sheet, and [checkConnection] is left
    before it schedules its next run. *)
Theorem manual_tickers_break_the_run (dt du : string) (broker : InteractiveBrokers)
    (rc : RequestClient) (manualTickers : list string) (w : World) :
  requestClient broker = Some rc ->
  size (tickerDictionary (portfolioTracker w)) <> 0%nat ->
  Portfolio.truth (fetchPositions rc) = true ->
  manualTickers <> [] ->
  (forall currentTime updateSeconds,
     seconds_us updateSeconds
     <= currentTime - lastPortfolioTime (portfolioTracker w) ->
     trackPortfolio dt du currentTime broker updateSeconds manualTickers w
     = Raised (AttributeError "symbol") w [LogInfo (Lit ">>refreshing tickers...")])
  /\ (forall clock,
        seconds_us 20 <= t_track clock - lastPortfolioTime (portfolioTracker w) ->
        exists w' effs,
          checkConnection dt du clock broker manualTickers w
          = Raised (AttributeError "symbol") (w', false) effs
          /\ portfolioTracker w' = portfolioTracker w
          /\ count isSchedule effs = 0%nat
          /\ count isSheetWrite effs = 0%nat).
Proof.
  intros Hrc Hsize Htruth Hne.
  assert (forall currentTime updateSeconds w0,
            portfolioTracker w0 = portfolioTracker w ->
            seconds_us updateSeconds
            <= currentTime - lastPortfolioTime (portfolioTracker w) ->
            trackPortfolio dt du currentTime broker updateSeconds manualTickers w0
            = Raised (AttributeError "symbol") w0
                [LogInfo (Lit ">>refreshing tickers...")]) as Htrack.
  { intros currentTime updateSeconds w0 Hw0 Hge. unfold trackPortfolio.
    rewrite Hw0. rewrite (proj2 (Z.ltb_ge _ _) Hge).
    unfold refreshTickerDictionary. rewrite Hrc, Htruth.
    rewrite decide_False by done. cbn [negb].
    destruct manualTickers as [|s rest]; [done|].
    change (map AsStr (s :: rest)) with (AsStr <$> (s :: rest)).
    rewrite appendSymbols_str. rewrite <- Hw0.
    by rewrite with_tracked_same. }
  split.
  - intros currentTime updateSeconds Hge. by apply Htrack.
  - intros clock Hge. unfold checkConnection.
    destruct (notifyCallBackStatus_frame (t_status clock) w) as (Ht & _ & _ & Hc).
    pose proof (notifyCallBackStatus_no_schedule (t_status clock) w) as Hsch.
    destruct (notifyCallBackStatus (t_status clock) w) as [w1 effs0].
    cbn [fst snd] in Ht, Hc, Hsch.
    unfold updateSeconds_default. rewrite (Htrack _ _ w1 Ht Hge).
    eexists _, _. split; [reflexivity|]. split; [exact Ht|].
    split; rewrite count_app; [rewrite Hsch | rewrite Hc]; reflexivity.
Qed.

Lemma manual_tickers_break_the_run_witness :
  trackPortfolio "STK" "" (seconds_us 130) aBroker 20 ["XYZ"%string] aWorld
  = Raised (AttributeError "symbol") aWorld [LogInfo (Lit ">>refreshing tickers...")].
Proof.
  apply (proj1 (manual_tickers_break_the_run "STK" "" aBroker
                  {| fetchPositions := aPortfolio |} ["XYZ"%string] aWorld
                  eq_refl ltac:(cbv; discriminate) eq_refl ltac:(discriminate))).
  cbv. discriminate.
Defined.

(** [trackPortfolio] schedules nothing and leaves the window and the
    counter alone, however it ends. *)
Lemma trackPortfolio_frame dt du currentTime broker updateSeconds manualTickers w :
  app (state_of (trackPortfolio dt du currentTime broker updateSeconds manualTickers w))
  = app w
  /\ callbackCounter
       (state_of (trackPortfolio dt du currentTime broker updateSeconds manualTickers w))
     = callbackCounter w
  /\ count isSchedule
       (effects_of (trackPortfolio dt du currentTime broker updateSeconds manualTickers w))
     = 0%nat.
Proof.
  unfold trackPortfolio. destruct (_ <? _); [done|].
  pose proof (refresh_effects dt du broker (dataManager w) (map AsStr manualTickers)
                (portfolioTracker w)) as [_ Hsch].
  destruct (refreshTickerDictionary _ _ _ _ _ _) as [[st1 rt1] e|x [st1 rt1] e];
    cbn [effects_of] in Hsch; cbn [update state_of effects_of with_tracked app
                                    callbackCounter].
  - repeat split. rewrite !count_app, Hsch. reflexivity.
  - repeat split. rewrite !count_app, Hsch. reflexivity.
Qed.

(** X22: [checkConnection] schedules its next run exactly once, five seconds
    after the clock reading it takes for it, whenever it returns, and not at
    all when the portfolio run raises.  When it returns, it returns [False]
    exactly if the window is missing, and the window's check flag is cleared. *)
Theorem checkConnection_rearms_once (dt du : string) (clock : Clock)
    (brokerClient : InteractiveBrokers) (manualTickers : list string) (w : World) :
  match checkConnection dt du clock brokerClient manualTickers w with
  | Returned (w', b) effs =>
      count isSchedule effs = 1%nat
      /\ Schedule (t_next clock + seconds_us 5) manualTickers ∈ effs
      /\ (b = false <-> app w = None)
      /\ (forall a, app w' = Some a -> checkCallBack a = false)
  | Raised _ _ effs => count isSchedule effs = 0%nat
  end.
Proof.
  unfold checkConnection.
  destruct (notifyCallBackStatus_frame (t_status clock) w) as (_ & _ & Ha0 & _).
  pose proof (notifyCallBackStatus_no_schedule (t_status clock) w) as Hs0.
  destruct (notifyCallBackStatus (t_status clock) w) as [w1 effs0].
  cbn [fst snd] in Ha0, Hs0.
  destruct (trackPortfolio_frame dt du (t_track clock) brokerClient
              updateSeconds_default manualTickers w1) as (Ha1 & _ & Hs1).
  destruct (trackPortfolio _ _ _ _ _ _ w1) as [w2 effs1|x w2 effs1];
    cbn [state_of effects_of] in Ha1, Hs1.
  - rewrite Ha1, Ha0. destruct (app w) as [a|] eqn:Ea.
    + destruct (checkCallBack a) eqn:Ec.
      * split; [rewrite !count_app, Hs0, Hs1; reflexivity|].
        split; [set_solver|]. split; [done|].
        intros a' [= <-]. reflexivity.
      * split; [rewrite !count_app, Hs0, Hs1; reflexivity|].
        split; [set_solver|]. split; [done|].
        intros a'. rewrite Ha1, Ha0. by intros [= <-].
    + split; [rewrite !count_app, Hs0, Hs1; reflexivity|].
      split; [set_solver|]. split; [done|].
      intros a'. rewrite Ha1, Ha0. done.
  - rewrite count_app, Hs0, Hs1. reflexivity.
Qed.

(** ** Connecting to the spreadsheet *)

Lemma connectLoop_Some attempt retries n : forall i k,
  (connectLoop attempt retries i n).1 = Some k <->
  (i <= k < i + n)%nat /\ attempt k = Connected
  /\ forall j, (i <= j < k)%nat -> attempt j <> Connected.
Proof.
  induction n as [|n IH]; intros i k; cbn [connectLoop].
  - split; [done|]. intros [? _]. lia.
  - destruct (attempt i) eqn:E.
    + cbn [fst]. split.
      * intros [= <-]. split; [lia|]. split; [done|]. intros j ?. lia.
      * intros (Hr & Hk & Hj). f_equal.
        destruct (decide (i = k)) as [|Hne]; [done|].
        destruct (Hj i); [lia | done].
    + destruct (connectLoop attempt retries (S i) n) as [r logs] eqn:El.
      cbn [fst]. specialize (IH (S i) k). rewrite El in IH. cbn [fst] in IH.
      rewrite IH. split.
      * intros (Hr & Hk & Hj). split; [lia|]. split; [done|].
        intros j Hjr. destruct (decide (j = i)) as [->|]; [congruence|].
        apply Hj. lia.
      * intros (Hr & Hk & Hj).
        assert (i <> k) by (intros ->; congruence).
        split; [lia|]. split; [done|]. intros j Hjr. apply Hj. lia.
    + destruct (connectLoop attempt retries (S i) n) as [r logs] eqn:El.
      cbn [fst]. specialize (IH (S i) k). rewrite El in IH. cbn [fst] in IH.
      rewrite IH. split.
      * intros (Hr & Hk & Hj). split; [lia|]. split; [done|].
        intros j Hjr. destruct (decide (j = i)) as [->|]; [congruence|].
        apply Hj. lia.
      * intros (Hr & Hk & Hj).
        assert (i <> k) by (intros ->; congruence).
        split; [lia|]. split; [done|]. intros j Hjr. apply Hj. lia.
Qed.

Lemma connectLoop_None attempt retries n : forall i,
  (connectLoop attempt retries i n).1 = None <->
  forall j, (i <= j < i + n)%nat -> attempt j <> Connected.
Proof.
  induction n as [|n IH]; intros i; cbn [connectLoop].
  - split; [|done]. intros _ j ?. lia.
  - destruct (attempt i) eqn:E.
    + cbn [fst]. split; [done|]. intros H. destruct (H i); [lia | done].
    + specialize (IH (S i)).
      destruct (connectLoop attempt retries (S i) n) as [r logs].
      cbn [fst] in *. rewrite IH. split.
      * intros H j ?. destruct (decide (j = i)) as [->|]; [congruence|].
        apply H. lia.
      * intros H j ?. apply H. lia.
    + specialize (IH (S i)).
      destruct (connectLoop attempt retries (S i) n) as [r logs].
      cbn [fst] in *. rewrite IH. split.
      * intros H j ?. destruct (decide (j = i)) as [->|]; [congruence|].
        apply H. lia.
      * intros H j ?. apply H. lia.
Qed.

Lemma connectLoop_logs attempt retries n : forall i,
  length (connectLoop attempt retries i n).2 =
  match (connectLoop attempt retries i n).1 with
  | Some k => S (k - i)
  | None => n
  end.
Proof.
  induction n as [|n IH]; intros i; cbn [connectLoop]; [done|].
  destruct (attempt i) eqn:E.
  - cbn. f_equal. lia.
  - specialize (IH (S i)).
    pose proof (connectLoop_Some attempt retries n (S i)) as HS.
    destruct (connectLoop attempt retries (S i) n) as [r logs].
    cbn [fst snd length] in *. rewrite IH. destruct r as [k|]; [|done].
    destruct (proj1 (HS k) eq_refl) as [? _]. lia.
  - specialize (IH (S i)).
    pose proof (connectLoop_Some attempt retries n (S i)) as HS.
    destruct (connectLoop attempt retries (S i) n) as [r logs].
    cbn [fst snd length] in *. rewrite IH. destruct r as [k|]; [|done].
    destruct (proj1 (HS k) eq_refl) as [? _]. lia.
Qed.

(** X23: [connectGoogleSheets] returns the object of the first attempt that
    is connected among the first [retries] ones, and raises when there is
    none, in particular when [retries] is zero or negative.  After its
    opening line it logs one line per attempt made: it stops at the first
    connected attempt and never makes more than [retries]. *)
Theorem connectGoogleSheets_first_connected (attempt : nat -> Attempt)
    (retries : Z) :
  (forall k, (connectGoogleSheets attempt retries).1 = Some k <->
             Z.of_nat k < retries /\ attempt k = Connected
             /\ forall j, (j < k)%nat -> attempt j <> Connected)
  /\ ((connectGoogleSheets attempt retries).1 = None <->
      forall j, Z.of_nat j < retries -> attempt j <> Connected)
  /\ length (connectGoogleSheets attempt retries).2
     = match (connectGoogleSheets attempt retries).1 with
       | Some k => S (S k)
       | None => S (Z.to_nat retries)
       end.
Proof.
  unfold connectGoogleSheets.
  pose proof (connectLoop_Some attempt retries (Z.to_nat retries) 0%nat) as HS.
  pose proof (connectLoop_logs attempt retries (Z.to_nat retries) 0%nat) as HL.
  pose proof (connectLoop_None attempt retries (Z.to_nat retries) 0%nat) as HN.
  destruct (connectLoop attempt retries 0 (Z.to_nat retries)) as [r logs].
  cbn [fst snd length] in *.
  assert (forall k, r = Some k <->
            Z.of_nat k < retries /\ attempt k = Connected
            /\ forall j, (j < k)%nat -> attempt j <> Connected) as Hk.
  { intros k. rewrite HS. split.
    - intros (Hr & Hc & Hj). split; [lia|]. split; [done|].
      intros j ?. apply Hj. lia.
    - intros (Hr & Hc & Hj). split; [lia|]. split; [done|].
      intros j ?. apply Hj. lia. }
  split; [exact Hk|]. split.
  - rewrite HN. split; intros H j ?; apply H; lia.
  - rewrite HL. destruct r as [k|]; [|done]. f_equal. f_equal. lia.
Qed.

(** ** A symbol seen for the first time *)

Lemma notifyShortableShares_first_seen c b st :
  nanCounterDict st !! Ib.symbol c = None ->
  Forall (valid_sample_of c) b ->
  notifyShortableShares b st
  = (st, match b with
         | [] => []
         | _ :: _ => [Print (UnexpectedError (Ib.symbol c))]
         end).
Proof.
  intros Hn Hb. destruct b as [|t rest]; [done|].
  inversion Hb as [|? ? [Hc Hv] _]; subst.
  destruct t as [ct sh]. simpl in Hc, Hv. subst ct.
  unfold notifyShortableShares. cbn [notifyLoop].
  change {| contract := Some c; shortableShares := sh |} with (sample c sh).
  by rewrite (notifyTicker_no_counter c sh st Hv Hn).
Qed.

(** C1, where the code misses it: a symbol that has no entry in the NaN
    counter dictionary, as every symbol has until its first NaN sample, and is
    fed valid samples only, in calls cut in any way.  Every call ends in the
    handler of the [KeyError] raised at the counter lookup: the state stays
    as it was, so no counter entry ever appears, and nothing is sent,
    whatever the samples; a first positive sample after an implicit previous
    value of 0 raises no [Emerged] notification. *)
Theorem first_seen_symbol_never_notified (c : Ib.Contract)
    (batches : list (list Ticker)) (st : Hyst) :
  nanCounterDict st !! Ib.symbol c = None ->
  Forall (Forall (valid_sample_of c)) batches ->
  (run batches st).1 = st
  /\ count isTelegram (run batches st).2 = 0%nat
  /\ count (isEmerged (Ib.symbol c)) (run batches st).2 = 0%nat
  /\ Forall (fun e => e = Print (UnexpectedError (Ib.symbol c))) (run batches st).2.
Proof.
  intros Hn Hall. induction Hall as [|b bs Hb _ IH]; [by repeat split|].
  cbn [run]. rewrite (notifyShortableShares_first_seen c b st Hn Hb).
  destruct (run bs st) as [st' effs]. cbn [fst snd] in *.
  destruct IH as (-> & Ht & He & Hp).
  split; [done|]. rewrite !count_app, Ht, He.
  destruct b; repeat split; try done. by constructor.
Qed.

Lemma first_seen_symbol_never_notified_witness :
  let c := {| Ib.symbol := "ABC"; Ib.localSymbol := "ABC" |} in
  let st := {| shortableSharesDict := ∅; nanCounterDict := ∅ |} in
  leb (decided "ABC" st) zeroQ = true
  /\ gtb (normalize (ofZ 500)) zeroQ = true
  /\ notifyShortableShares [sample c (ofZ 500)] st
     = (st, [Print (UnexpectedError "ABC")])
  /\ (run [[sample c (ofZ 500)]; [sample c (ofZ 600)]] st).1 = st
  /\ count isTelegram (run [[sample c (ofZ 500)]; [sample c (ofZ 600)]] st).2 = 0%nat.
Proof.
  intros c st.
  split; [reflexivity|]. split; [reflexivity|]. split; [reflexivity|].
  destruct (first_seen_symbol_never_notified c
              [[sample c (ofZ 500)]; [sample c (ofZ 600)]] st eq_refl)
    as (Hst & Htel & _).
  - repeat constructor.
  - by split.
Defined.
